(** * convert_clone_file.py: a Deckard clusters file to Genprog input

    A shallow embedding of [scripts/convert_clone_file.py] (Python 2) and
    the properties of its line converter.  Python byte strings are
    [string]s, the integers of [int()] are [Z], the file system is a
    finite map from paths to contents, and the statements of the script
    run in a state-and-exception monad over a [world] that records the
    files, the open file objects, the text printed and the calls of
    [output_file.write]. *)

From Stdlib Require Import String Ascii ZArith List Lia DecimalString.
From Stdlib Require DecimalPos.
From stdpp Require Import gmap strings list.

Local Open Scope Z_scope.

(** ** Python 2 string primitives *)

(** The newline character and the one-character string holding it. *)
Definition newline : ascii := "010"%char.
Definition nl : string := String newline "".

(** [isspace] of the C locale: space, and the range tab .. carriage return.
    It decides where [str.split()] cuts and what [int()] strips. *)
Definition is_space (c : ascii) : bool :=
  let n := N_of_ascii c in
  ((n =? 32) || ((9 <=? n) && (n <=? 13)))%N.

(** [s.split()]: the maximal runs of non-whitespace characters of [s].
    [cur] is the run being read. *)
Fixpoint split_ws (cur s : string) : list string :=
  match s with
  | EmptyString => if decide (cur = "") then [] else [cur]
  | String c s' =>
      if is_space c
      then (if decide (cur = "") then split_ws "" s' else cur :: split_ws "" s')
      else split_ws (cur +:+ String c "") s'
  end.

Definition py_split (s : string) : list string := split_ws "" s.

(** [s.split(sep)] for a one-character separator: never empty, and empty
    fields are kept. *)
Fixpoint split_on (sep : ascii) (cur s : string) : list string :=
  match s with
  | EmptyString => [cur]
  | String c s' =>
      if decide (c = sep)
      then cur :: split_on sep "" s'
      else split_on sep (cur +:+ String c "") s'
  end.

Definition str_split (sep : ascii) (s : string) : list string :=
  split_on sep "" s.

(** [int(s)] in base 10: leading whitespace, an optional sign, at least one
    digit, trailing whitespace.  [None] stands for the [ValueError]. *)
Definition digit_val (c : ascii) : option Z :=
  let n := N_of_ascii c in
  if ((48 <=? n) && (n <=? 57))%N then Some (Z.of_N n - 48) else None.

Fixpoint all_space (s : string) : bool :=
  match s with
  | EmptyString => true
  | String c s' => is_space c && all_space s'
  end.

Fixpoint digits (seen : bool) (acc : Z) (s : string) : option Z :=
  match s with
  | EmptyString => if seen then Some acc else None
  | String c s' =>
      match digit_val c with
      | Some d => digits true (10 * acc + d) s'
      | None => if seen && all_space s then Some acc else None
      end
  end.

Fixpoint lstrip (s : string) : string :=
  match s with
  | EmptyString => ""
  | String c s' => if is_space c then lstrip s' else s
  end.

Definition py_int (s : string) : option Z :=
  match lstrip s with
  | String "-" s' => Z.opp <$> digits false 0 s'
  | String "+" s' => digits false 0 s'
  | s' => digits false 0 s'
  end.

(** ["%d" % z] *)
Definition fmt_d (z : Z) : string := NilZero.string_of_int (Z.to_int z).

(** ["%d,%d,%s\n" % (startline, num_lines, filename)] *)
Definition fmt_record (startline num_lines : Z) (filename : string) : string :=
  fmt_d startline +:+ "," +:+ fmt_d num_lines +:+ "," +:+ filename +:+ nl.

(** The lines a file object yields when iterated: each ends with its
    newline, except possibly the last. *)
Fixpoint lines_from (cur s : string) : list string :=
  match s with
  | EmptyString => if decide (cur = "") then [] else [cur]
  | String c s' =>
      if decide (c = newline)
      then (cur +:+ nl) :: lines_from "" s'
      else lines_from (cur +:+ String c "") s'
  end.

Definition file_lines (s : string) : list string := lines_from "" s.

(** ** The world and the monad of statements *)

Inductive exn : Type := IOError | IndexError | ValueError.

Inductive result (A : Type) : Type :=
| Ok (a : A)
| Raise (e : exn).
Arguments Ok {A} a.
Arguments Raise {A} e.

Record world : Type := World {
  files : gmap string string;   (* path -> content *)
  unwritable : gset string;     (* paths that cannot be opened for writing *)
  opened : list string;         (* file objects opened and not closed *)
  stdout : list string;         (* what the print statements emitted *)
  written : list string;        (* the arguments of output_file.write *)
}.

Definition M (A : Type) : Type := world -> world * result A.

Definition ret {A} (a : A) : M A := fun w => (w, Ok a).

Definition raise {A} (e : exn) : M A := fun w => (w, Raise e).

Definition bind {A B} (m : M A) (k : A -> M B) : M B :=
  fun w =>
    match m w with
    | (w', Ok a) => k a w'
    | (w', Raise e) => (w', Raise e)
    end.

Declare Scope py_scope.
Delimit Scope py_scope with py.
Notation "x <- m ;; k" := (bind m (fun x => k))
  (at level 100, m at next level, right associativity) : py_scope.
Notation "m ;; k" := (bind m (fun _ => k))
  (at level 100, right associativity) : py_scope.
Local Open Scope py_scope.

(** [for x in xs: s = body(x, s)] *)
Fixpoint for_each {A S : Type} (body : A -> S -> M S) (xs : list A) (s : S) : M S :=
  match xs with
  | [] => ret s
  | x :: xs' => s' <- body x s ;; for_each body xs' s'
  end.

(** [print s]: the text and a newline go to standard output. *)
Definition print (s : string) : M unit :=
  fun w =>
    (World (files w) (unwritable w) (opened w) (stdout w ++ [s +:+ nl]) (written w),
     Ok tt).

(** [open(path, 'r')]: the file has to exist. *)
Definition open_r (path : string) : M unit :=
  fun w =>
    match files w !! path with
    | Some _ =>
        (World (files w) (unwritable w) (path :: opened w) (stdout w) (written w),
         Ok tt)
    | None => (w, Raise IOError)
    end.

(** [open(path, 'w+')]: the file is created or truncated. *)
Definition open_w (path : string) : M unit :=
  fun w =>
    if decide (path ∈ unwritable w) then (w, Raise IOError)
    else
      (World (<[path := ""%string]> (files w)) (unwritable w)
             (path :: opened w) (stdout w) (written w),
       Ok tt).

(** What iterating the file object yields.  The script reads while it
    writes; the two files differ, or the input was truncated by
    [open_w] and is empty, so reading everything first gives the same
    lines. *)
Definition read_lines (path : string) : M (list string) :=
  fun w => (w, Ok (file_lines (default ""%string (files w !! path)))).

(** [f.write(s)] on the file object of [path]. *)
Definition write (path s : string) : M unit :=
  fun w =>
    (World (<[path := default ""%string (files w !! path) +:+ s]> (files w))
           (unwritable w) (opened w) (stdout w) (written w ++ [s]),
     Ok tt).

(** Removes the first occurrence. *)
Fixpoint remove_one (x : string) (l : list string) : list string :=
  match l with
  | [] => []
  | y :: l' => if decide (x = y) then l' else y :: remove_one x l'
  end.

(** [f.close()] *)
Definition close (path : string) : M unit :=
  fun w =>
    (World (files w) (unwritable w) (remove_one path (opened w)) (stdout w)
           (written w),
     Ok tt).

(** ** The script *)

(** The variables the token loop assigns. *)
Record locals : Type := Locals {
  index : nat;
  filename : string;
  startline : Z;
  num_lines : Z;
}.

(** [int(s)], raising [ValueError]. *)
Definition int_of (s : string) : M Z :=
  match py_int s with
  | Some z => ret z
  | None => raise ValueError
  end.

(** [l[i]], raising [IndexError]. *)
Definition item (l : list string) (i : nat) : M string :=
  match l !! i with
  | Some x => ret x
  | None => raise IndexError
  end.

(** The body of [for tok in split_line]. *)
Definition scan_tok (line : string) (split_line : list string)
    (tok : string) (l : locals) : M locals :=
  l <- (if decide (tok = "FILE"%string) then
          f <- item split_line (index l + 1) ;;
          ret (Locals (index l) f (startline l) (num_lines l))
        else ret l) ;;
  l <- (if decide (substring 0 4 tok = "LINE"%string) then
          let split_tok := str_split ":" tok in
          if decide (length split_tok ≠ 3%nat) then
            print ("BAD LINE DELIMITER AT LINE: " +:+ line) ;;
            ret l
          else
            s <- int_of (split_tok !!! 1%nat) ;;
            n <- int_of (split_tok !!! 2%nat) ;;
            ret (Locals (index l) (filename l) s n)
        else ret l) ;;
  ret (Locals (index l + 1) (filename l) (startline l) (num_lines l)).

(** [for tok in split_line], from the initial values of the variables. *)
Definition scan_line (line : string) (split_line : list string) : M locals :=
  for_each (scan_tok line split_line) split_line (Locals 0 "" (-1) (-1)).

(** The three checks after the token loop. *)
Definition check_fields (line : string) (l : locals) : M bool :=
  let write_line := true in
  write_line <- (if decide (filename l = ""%string) then
                   print ("NO FILENAME FOUND AT LINE: " +:+ line) ;; ret false
                 else ret write_line) ;;
  write_line <- (if decide (startline l = -1) then
                   print ("NO STARTLINE FOUND AT LINE: " +:+ line) ;; ret false
                 else ret write_line) ;;
  write_line <- (if decide (num_lines l = -1) then
                   print ("NO NUM_LINES FOUND AT LINE: " +:+ line) ;; ret false
                 else ret write_line) ;;
  ret write_line.

(** The body of [for line in input_file]; [write_blank] is the one
    variable that lives across lines. *)
Definition do_line (output_file : string) (line : string) (write_blank : bool)
    : M bool :=
  let split_line := py_split line in
  if decide (length split_line = 0%nat) then
    if write_blank then
      write output_file nl ;;
      ret false
    else ret write_blank
  else
    l <- scan_line line split_line ;;
    write_line <- check_fields line l ;;
    if write_line then
      write output_file (fmt_record (startline l) (num_lines l) (filename l)) ;;
      ret true
    else ret write_blank.

Definition convert_file (input output : string) : M unit :=
  open_r input ;;
  open_w output ;;
  lines <- read_lines input ;;
  for_each (do_line output) lines false ;;
  close input ;;
  close output ;;
  ret tt.

(** [sys.argv] is a parameter. *)
Definition main (argv : list string) : M Z :=
  if decide (length argv ≠ 3%nat) then
    print "NEED 2 ARGUMENTS" ;;
    print "ARGUMENT FORMAT: input_file output_file" ;;
    ret 1
  else
    convert_file (argv !!! 1%nat) (argv !!! 2%nat) ;;
    ret 0.

(** ** Vocabulary of the statements *)

(** The conditions the token loop tests on a token. *)
Definition line_prefixed (tok : string) : Prop :=
  substring 0 4 tok = "LINE"%string.

#[global] Instance line_prefixed_dec (tok : string) : Decision (line_prefixed tok).
Proof. unfold line_prefixed. apply _. Defined.

Definition three_parts (tok : string) : Prop :=
  length (str_split ":" tok) = 3%nat.

(** A [LINE] token that does not split into three parts. *)
Definition malformed (tok : string) : Prop :=
  line_prefixed tok /\ ~ three_parts tok.

(** A three-part [LINE] token whose second and third parts are the
    integers [s] and [n]. *)
Definition wellformed (tok : string) (s n : Z) : Prop :=
  line_prefixed tok /\ three_parts tok /\
  py_int (str_split ":" tok !!! 1%nat) = Some s /\
  py_int (str_split ":" tok !!! 2%nat) = Some n.

(** A three-part [LINE] token on which one of the two [int()] calls fails. *)
Definition nonnumeric (tok : string) : Prop :=
  line_prefixed tok /\ three_parts tok /\
  (py_int (str_split ":" tok !!! 1%nat) = None \/
   py_int (str_split ":" tok !!! 2%nat) = None).

(** A token the loop passes over. *)
Definition plain (tok : string) : Prop :=
  tok <> "FILE"%string /\ ~ line_prefixed tok.

(** A line without tokens. *)
Definition blank (line : string) : Prop := py_split line = [].

(** The diagnostics. *)
Definition bad_delimiter (line : string) : string :=
  "BAD LINE DELIMITER AT LINE: " +:+ line +:+ nl.
Definition no_filename (line : string) : string :=
  "NO FILENAME FOUND AT LINE: " +:+ line +:+ nl.
Definition no_startline (line : string) : string :=
  "NO STARTLINE FOUND AT LINE: " +:+ line +:+ nl.
Definition no_num_lines (line : string) : string :=
  "NO NUM_LINES FOUND AT LINE: " +:+ line +:+ nl.

(** The world after some text was printed, and after one [write]. *)
Definition printed (msgs : list string) (w : world) : world :=
  World (files w) (unwritable w) (opened w) (stdout w ++ msgs) (written w).

Definition wrote (path s : string) (w : world) : world :=
  World (<[path := default ""%string (files w !! path) +:+ s]> (files w))
        (unwritable w) (opened w) (stdout w) (written w ++ [s]).

(** The case the body of the token loop is in on a token. *)
Inductive tok_class : Type :=
| File
| Malformed
| Numbers (s n : Z)
| NonNumeric
| Other.

Definition classify (tok : string) : tok_class :=
  if decide (tok = "FILE"%string) then File
  else if decide (substring 0 4 tok = "LINE"%string) then
    if decide (length (str_split ":" tok) ≠ 3%nat) then Malformed
    else
      match py_int (str_split ":" tok !!! 1%nat) with
      | Some s =>
          match py_int (str_split ":" tok !!! 2%nat) with
          | Some n => Numbers s n
          | None => NonNumeric
          end
      | None => NonNumeric
      end
  else Other.

(** The token loop as a function of the tokens still to read: the
    look-ahead of [FILE] is the head of the rest.  The number counts the
    malformed tokens met. *)
Fixpoint scan_pure (toks : list string) (f : string) (s n : Z)
    : nat * result (string * Z * Z) :=
  match toks with
  | [] => (0%nat, Ok (f, s, n))
  | t :: rest =>
      match classify t with
      | File =>
          match rest with
          | x :: _ => scan_pure rest x s n
          | [] => (0%nat, Raise IndexError)
          end
      | Malformed => let (k, r) := scan_pure rest f s n in (S k, r)
      | Numbers s' n' => scan_pure rest f s' n'
      | NonNumeric => (0%nat, Raise ValueError)
      | Other => scan_pure rest f s n
      end
  end.

(** The outcome of the loop as the variables it leaves. *)
Definition scan_result (len : nat) (r : result (string * Z * Z)) : result locals :=
  match r with
  | Ok (f, s, n) => Ok (Locals len f s n)
  | Raise e => Raise e
  end.

(** What the three checks print, and whether they let the line be written. *)
Definition field_diags (line f : string) (s n : Z) : list string :=
  (if decide (f = ""%string) then [no_filename line] else []) ++
  (if decide (s = -1) then [no_startline line] else []) ++
  (if decide (n = -1) then [no_num_lines line] else []).

Definition fields_ok (f : string) (s n : Z) : bool :=
  bool_decide (f ≠ ""%string) && bool_decide (s ≠ -1) && bool_decide (n ≠ -1).

(** What a line with tokens does, from the outcome of its token loop. *)
Definition line_outcome (out line : string) (wb : bool)
    (kr : nat * result (string * Z * Z)) (w : world) : world * result bool :=
  let w1 := printed (repeat (bad_delimiter line) (fst kr)) w in
  match snd kr with
  | Raise e => (w1, Raise e)
  | Ok (f, s, n) =>
      let w2 := printed (field_diags line f s n) w1 in
      if fields_ok f s n then (wrote out (fmt_record s n f) w2, Ok true)
      else (w2, Ok wb)
  end.

(** A line produces the record [r]: whatever the state, its processing
    completes, writes [r] and sets the flag. *)
Definition produces (line r : string) : Prop :=
  forall out wb w,
    exists w', do_line out line wb w = (w', Ok true) /\ written w' = written w ++ [r].

(** The shape of what is written: no blank line first, no two blank
    lines in a row. *)
Definition tidy (ws : list string) : Prop :=
  head ws <> Some nl /\ forall l1 l2, ws <> l1 ++ nl :: nl :: l2.

Definition ends_with_record (ws : list string) : Prop :=
  exists ws' r, ws = ws' ++ [r] /\ r <> nl.

(** The text a sequence of writes leaves in a file. *)
Definition text (ws : list string) : string := foldr String.append ""%string ws.

(** A string without newline, a string without whitespace, and a string
    that is one line of a file: a text without newline, then a newline. *)
Fixpoint no_newline (s : string) : bool :=
  match s with
  | EmptyString => true
  | String c s' => bool_decide (c ≠ newline) && no_newline s'
  end.

Fixpoint no_space (s : string) : bool :=
  match s with
  | EmptyString => true
  | String c s' => negb (is_space c) && no_space s'
  end.

Definition one_line (x : string) : Prop :=
  exists body, x = body +:+ nl /\ no_newline body = true.

(** The world once [convert_file] has opened its two files, the lines it
    then reads, and the world once it has closed the files. *)
Definition opening (input output : string) (w : world) : world :=
  World (<[output := ""%string]> (files w)) (unwritable w)
        (output :: input :: opened w) (stdout w) (written w).

Definition input_lines (input output : string) (w : world) : list string :=
  file_lines (default ""%string (<[output := ""%string]> (files w) !! input)).

Definition closing (input output : string) (w : world) : world :=
  World (files w) (unwritable w)
        (remove_one output (remove_one input (opened w))) (stdout w) (written w).

(** A world holding the given files, nothing open, nothing printed. *)
Definition world_of (fs : gmap string string) : world := World fs ∅ [] [] [].

(** The inputs of the examples. *)
Definition spec_input : string :=
  "FILE test.c LINE:1:3" +:+ nl +:+ nl +:+ "FILE test.c LINE:10:2" +:+ nl.

Definition nonnumeric_input : string :=
  "FILE a.c LINE:1:2" +:+ nl +:+ "FILE b.c LINE:x:3" +:+ nl +:+
  "FILE c.c LINE:4:5" +:+ nl.

Definition malformed_line : string := "FILE a.c LINE:10:5:extra" +:+ nl.

Definition sentinel_line : string := "FILE a.c LINE:-1:5" +:+ nl.

(** The side condition of the examples: no token of a list of literals is
    a three-part [LINE] token with a non-integer part. *)
Ltac no_nonnumeric :=
  repeat constructor; intros (Hl & _ & Hi); try discriminate Hl;
  destruct Hi; discriminate.

Ltac not_in_literals :=
  rewrite ?not_elem_of_cons; repeat split; try discriminate;
  apply not_elem_of_nil.

(** The script as a whole: its last statement calls [main] and drops
    what [main] returns. *)
Definition script (argv : list string) : M unit :=
  main argv ;;
  ret tt.

(** The exit status of the interpreter: 1 when an exception reaches the
    top, 0 when the script runs to its end. *)
Definition exit_status {A : Type} (r : result A) : Z :=
  match r with
  | Ok _ => 0
  | Raise _ => 1
  end.

(** [sep.join(l)] *)
Fixpoint str_join (sep : string) (l : list string) : string :=
  match l with
  | [] => ""
  | x :: rest =>
      match rest with
      | [] => x
      | _ :: _ => x +:+ sep +:+ str_join sep rest
      end
  end.

(** [s.count(c)] for a character. *)
Fixpoint count_char (c : ascii) (s : string) : nat :=
  match s with
  | EmptyString => 0%nat
  | String d s' => ((if decide (d = c) then 1 else 0) + count_char c s')%nat
  end.

(** What a line writes on its own, with the flag cleared: its record, if
    it has one. *)
Definition record_of (line : string) : option string :=
  head (written (fst (do_line "" line false (world_of ∅)))).

(** A line with tokens that is passed over: it raises nothing and has no
    record. *)
Definition skipped (line : string) : Prop :=
  py_split line <> [] /\
  snd (do_line "" line false (world_of ∅)) = Ok false /\
  record_of line = None.

(** Worlds with the same files and the same writes. *)
Definition same_output (w1 w2 : world) : Prop :=
  files w1 = files w2 /\ written w1 = written w2.

(** A record fit for the output: both numbers set, a file name that is
    not empty and holds no whitespace. *)
Definition valid_record (x : string) : Prop :=
  exists s n f,
    x = fmt_record s n f /\ s <> -1 /\ n <> -1 /\
    f <> ""%string /\ no_space f = true.

(** ** The monad and the world *)

Lemma printed_nil w : printed [] w = w.
Proof. destruct w; unfold printed; simpl. by rewrite app_nil_r. Qed.

Lemma printed_app a b w : printed b (printed a w) = printed (a ++ b) w.
Proof. unfold printed; simpl. by rewrite app_assoc. Qed.

Lemma print_eq s w : print s w = (printed [s +:+ nl] w, Ok tt).
Proof. reflexivity. Qed.

Lemma write_eq path s w : write path s w = (wrote path s w, Ok tt).
Proof. reflexivity. Qed.

Lemma for_each_app {A S} (body : A -> S -> M S) xs ys s w :
  for_each body (xs ++ ys) s w =
  (s' <- for_each body xs s ;; for_each body ys s') w.
Proof.
  revert s w. induction xs as [|x xs IH]; intros s w; simpl.
  - reflexivity.
  - unfold bind. destruct (body x s w) as [w' [s'|e]]; [|reflexivity].
    rewrite IH. reflexivity.
Qed.

(** ** The token loop *)

Lemma scan_tok_spec line sl tok l w :
  scan_tok line sl tok l w =
  match classify tok with
  | File =>
      match sl !! (index l + 1)%nat with
      | Some f =>
          (w, Ok (Locals (index l + 1) f (startline l) (num_lines l)))
      | None => (w, Raise IndexError)
      end
  | Malformed =>
      (printed [bad_delimiter line] w,
       Ok (Locals (index l + 1) (filename l) (startline l) (num_lines l)))
  | Numbers s n => (w, Ok (Locals (index l + 1) (filename l) s n))
  | NonNumeric => (w, Raise ValueError)
  | Other =>
      (w, Ok (Locals (index l + 1) (filename l) (startline l) (num_lines l)))
  end.
Proof.
  unfold scan_tok, classify.
  destruct (decide (tok = "FILE"%string)) as [->|Hf].
  - simpl. unfold bind, item, ret, raise.
    destruct (sl !! (index l + 1)%nat); reflexivity.
  - destruct (decide (substring 0 4 tok = "LINE"%string)) as [Hl|Hl].
    + destruct (decide (length (str_split ":" tok) ≠ 3%nat)) as [H3|H3].
      * reflexivity.
      * unfold bind, int_of, ret, raise.
        destruct (py_int (str_split ":" tok !!! 1%nat)); [|reflexivity].
        destruct (py_int (str_split ":" tok !!! 2%nat)); reflexivity.
    + reflexivity.
Qed.

Lemma scan_loop_spec line sl toks :
  forall pre l w,
    sl = pre ++ toks -> index l = length pre ->
    for_each (scan_tok line sl) toks l w =
    (printed (repeat (bad_delimiter line)
                (fst (scan_pure toks (filename l) (startline l) (num_lines l)))) w,
     scan_result (length sl)
       (snd (scan_pure toks (filename l) (startline l) (num_lines l)))).
Proof.
  induction toks as [|t rest IH]; intros pre l w Hsl Hi.
  - simpl. rewrite printed_nil. unfold ret. subst sl.
    rewrite app_nil_r, <- Hi. by destruct l.
  - simpl. unfold bind. rewrite scan_tok_spec.
    assert (Hnext : sl !! (index l + 1)%nat = rest !! 0%nat).
    { subst sl. rewrite Hi.
      rewrite (lookup_app_r pre) by lia.
      replace (length pre + 1 - length pre)%nat with 1%nat by lia.
      reflexivity. }
    assert (Hsl' : sl = (pre ++ [t]) ++ rest) by (by rewrite <- app_assoc).
    assert (Hlen : (index l + 1)%nat = length (pre ++ [t])).
    { rewrite length_app. simpl. lia. }
    destruct (classify t) eqn:Hc.
    + rewrite Hnext. destruct rest as [|x rest'].
      * simpl. by rewrite printed_nil.
      * change ((x :: rest') !! 0%nat) with (Some x). cbv beta iota.
        rewrite (IH (pre ++ [t])); [|done|done]. reflexivity.
    + rewrite (IH (pre ++ [t])); [|done|done]. simpl.
      destruct (scan_pure rest (filename l) (startline l) (num_lines l)) as [k r].
      simpl. rewrite printed_app. reflexivity.
    + rewrite (IH (pre ++ [t])); [|done|done]. reflexivity.
    + simpl. by rewrite printed_nil.
    + rewrite (IH (pre ++ [t])); [|done|done]. reflexivity.
Qed.

Lemma scan_line_spec line sl w :
  scan_line line sl w =
  (printed (repeat (bad_delimiter line) (fst (scan_pure sl "" (-1) (-1)))) w,
   scan_result (length sl) (snd (scan_pure sl "" (-1) (-1)))).
Proof. unfold scan_line. by rewrite (scan_loop_spec line sl sl []). Qed.

(** ** One line *)

Lemma check_fields_spec line l w :
  check_fields line l w =
  (printed (field_diags line (filename l) (startline l) (num_lines l)) w,
   Ok (fields_ok (filename l) (startline l) (num_lines l))).
Proof.
  unfold check_fields, field_diags, fields_ok, bind, ret, print, printed.
  destruct (decide (filename l = ""%string)), (decide (startline l = -1)),
    (decide (num_lines l = -1));
    repeat (rewrite bool_decide_true by done);
    repeat (rewrite bool_decide_false by (intros ?; done));
    simpl; rewrite <- ?app_assoc, ?app_nil_r; try reflexivity.
  by destruct w.
Qed.

Lemma do_line_blank out line wb w :
  blank line ->
  do_line out line wb w = if wb then (wrote out nl w, Ok false) else (w, Ok false).
Proof.
  unfold blank, do_line. intros ->. simpl. by destruct wb.
Qed.

Lemma do_line_data out line wb w :
  ~ blank line ->
  do_line out line wb w =
  line_outcome out line wb (scan_pure (py_split line) "" (-1) (-1)) w.
Proof.
  unfold blank, do_line, line_outcome. intros Hb.
  destruct (decide (length (py_split line) = 0%nat)) as [H0|H0].
  { destruct (py_split line); [done | discriminate]. }
  unfold bind at 1. rewrite scan_line_spec.
  destruct (scan_pure (py_split line) "" (-1) (-1)) as [k [[[f s] n]|e]]; simpl;
    [|reflexivity].
  unfold bind. rewrite check_fields_spec. simpl.
  destruct (fields_ok f s n); reflexivity.
Qed.

(** ** Tokens and their classes *)

Lemma split_ws_nonempty s : forall cur, Forall (fun t => t <> ""%string) (split_ws cur s).
Proof.
  induction s as [|c s IH]; intros cur; simpl.
  - destruct (decide (cur = ""%string)); auto.
  - destruct (is_space c); [|apply IH].
    destruct (decide (cur = ""%string)); [apply IH|].
    constructor; [done | apply IH].
Qed.

Lemma py_split_nonempty line t : t ∈ py_split line -> t <> ""%string.
Proof.
  intros Hin. pose proof (split_ws_nonempty line "") as H.
  rewrite Forall_forall in H. by apply H.
Qed.

Lemma classify_file : classify "FILE" = File.
Proof. reflexivity. Qed.

Lemma line_prefixed_not_file tok : line_prefixed tok -> tok <> "FILE"%string.
Proof. unfold line_prefixed. intros H ->. discriminate. Qed.

Lemma classify_plain tok : plain tok -> classify tok = Other.
Proof.
  unfold plain, line_prefixed, classify. intros [Hf Hl].
  destruct (decide (tok = "FILE"%string)); [done|].
  by destruct (decide (substring 0 4 tok = "LINE"%string)).
Qed.

Lemma classify_malformed tok : malformed tok -> classify tok = Malformed.
Proof.
  unfold malformed, three_parts, classify. intros [Hl H3].
  pose proof (line_prefixed_not_file _ Hl). unfold line_prefixed in Hl.
  destruct (decide (tok = "FILE"%string)); [done|].
  destruct (decide (substring 0 4 tok = "LINE"%string)); [|done].
  by destruct (decide (length (str_split ":" tok) ≠ 3%nat)).
Qed.

Lemma classify_wellformed tok s n : wellformed tok s n -> classify tok = Numbers s n.
Proof.
  unfold wellformed, three_parts, classify. intros (Hl & H3 & Hs & Hn).
  pose proof (line_prefixed_not_file _ Hl). unfold line_prefixed in Hl.
  destruct (decide (tok = "FILE"%string)); [done|].
  destruct (decide (substring 0 4 tok = "LINE"%string)); [|done].
  destruct (decide (length (str_split ":" tok) ≠ 3%nat)); [done|].
  by rewrite Hs, Hn.
Qed.

Lemma classify_nonnumeric tok : nonnumeric tok <-> classify tok = NonNumeric.
Proof.
  unfold nonnumeric, three_parts, line_prefixed, classify. split.
  - intros (Hl & H3 & Hn).
    pose proof (line_prefixed_not_file _ Hl).
    destruct (decide (tok = "FILE"%string)); [done|].
    destruct (decide (substring 0 4 tok = "LINE"%string)); [|done].
    destruct (decide (length (str_split ":" tok) ≠ 3%nat)); [done|].
    destruct Hn as [-> | Hn]; [done|].
    rewrite Hn. by destruct (py_int (str_split ":" tok !!! 1%nat)).
  - destruct (decide (tok = "FILE"%string)); [done|].
    destruct (decide (substring 0 4 tok = "LINE"%string)) as [Hl|]; [|done].
    destruct (decide (length (str_split ":" tok) ≠ 3%nat)) as [|H3]; [done|].
    assert (length (str_split ":" tok) = 3%nat) by lia.
    destruct (py_int (str_split ":" tok !!! 1%nat)) eqn:H1; [|by auto].
    destruct (py_int (str_split ":" tok !!! 2%nat)) eqn:H2; [done | by auto].
Qed.

Lemma classify_numbers tok s n : classify tok = Numbers s n -> wellformed tok s n.
Proof.
  unfold wellformed, three_parts, line_prefixed, classify.
  destruct (decide (tok = "FILE"%string)); [done|].
  destruct (decide (substring 0 4 tok = "LINE"%string)) as [Hl|]; [|done].
  destruct (decide (length (str_split ":" tok) ≠ 3%nat)) as [|H3]; [done|].
  assert (length (str_split ":" tok) = 3%nat) by lia.
  destruct (py_int (str_split ":" tok !!! 1%nat)) eqn:H1; [|done].
  destruct (py_int (str_split ":" tok !!! 2%nat)) eqn:H2; [|done].
  intros [= -> ->]. done.
Qed.

Lemma classify_File_inv tok : classify tok = File -> tok = "FILE"%string.
Proof.
  unfold classify. destruct (decide (tok = "FILE"%string)); [done|].
  destruct (decide (substring 0 4 tok = "LINE"%string)); [|done].
  destruct (decide (length (str_split ":" tok) ≠ 3%nat)); [done|].
  destruct (py_int (str_split ":" tok !!! 1%nat)); [|done].
  by destruct (py_int (str_split ":" tok !!! 2%nat)).
Qed.

Lemma classify_Malformed_inv tok : classify tok = Malformed -> malformed tok.
Proof.
  unfold malformed, three_parts, line_prefixed, classify.
  destruct (decide (tok = "FILE"%string)); [done|].
  destruct (decide (substring 0 4 tok = "LINE"%string)); [|done].
  destruct (decide (length (str_split ":" tok) ≠ 3%nat)); [done|].
  destruct (py_int (str_split ":" tok !!! 1%nat)); [|done].
  by destruct (py_int (str_split ":" tok !!! 2%nat)).
Qed.

Lemma classify_Other_inv tok : classify tok = Other -> plain tok.
Proof.
  unfold plain, line_prefixed, classify.
  destruct (decide (tok = "FILE"%string)); [done|].
  destruct (decide (substring 0 4 tok = "LINE"%string)); [|done].
  destruct (decide (length (str_split ":" tok) ≠ 3%nat)); [done|].
  destruct (py_int (str_split ":" tok !!! 1%nat)); [|done].
  by destruct (py_int (str_split ":" tok !!! 2%nat)).
Qed.

(** ** The token loop on the tokens alone *)

Lemma scan_pure_plain toks rest f s n :
  Forall plain toks -> scan_pure (toks ++ rest) f s n = scan_pure rest f s n.
Proof.
  induction 1 as [|t toks Ht _ IH]; simpl; [done|].
  by rewrite (classify_plain _ Ht).
Qed.

(** Without a [FILE] at the end and without a non-numeric token the loop
    completes. *)
Lemma scan_pure_completes toks :
  forall f s n,
    last toks <> Some "FILE"%string -> Forall (fun t => ~ nonnumeric t) toks ->
    exists r, snd (scan_pure toks f s n) = Ok r.
Proof.
  induction toks as [|t rest IH]; intros f s n Hlast Hnn; simpl; [eauto|].
  inversion Hnn as [|? ? Ht Hrest]; subst.
  assert (Hlast' : rest <> [] -> last rest <> Some "FILE"%string).
  { intros Hne. destruct rest; [done|]. exact Hlast. }
  destruct (classify t) eqn:Hc.
  - destruct rest as [|x rest']; [|apply IH; auto].
    apply classify_File_inv in Hc as ->. by destruct Hlast.
  - destruct rest as [|x rest']; [simpl; eauto|].
    destruct (IH f s n) as [r Hr]; auto.
    destruct (scan_pure (x :: rest') f s n); simpl in *; eauto.
  - destruct rest as [|x rest']; [simpl; eauto|]. apply IH; auto.
  - by apply classify_nonnumeric in Hc.
  - destruct rest as [|x rest']; [simpl; eauto|]. apply IH; auto.
Qed.

(** A non-numeric token raises [ValueError], whatever else is there. *)
Lemma scan_pure_nonnumeric toks :
  forall f s n,
    Exists nonnumeric toks -> snd (scan_pure toks f s n) = Raise ValueError.
Proof.
  induction toks as [|t rest IH]; intros f s n Hex; [by inversion Hex|].
  simpl. destruct (classify t) eqn:Hc.
  - inversion Hex as [? ? Ht|? ? Hr]; subst.
    { apply classify_nonnumeric in Ht. congruence. }
    destruct rest; [by inversion Hr | by apply IH].
  - inversion Hex as [? ? Ht|? ? Hr]; subst.
    { apply classify_nonnumeric in Ht. congruence. }
    specialize (IH f s n Hr). by destruct (scan_pure rest f s n).
  - inversion Hex as [? ? Ht|? ? Hr]; subst.
    { apply classify_nonnumeric in Ht. congruence. }
    by apply IH.
  - done.
  - inversion Hex as [? ? Ht|? ? Hr]; subst.
    { apply classify_nonnumeric in Ht. congruence. }
    by apply IH.
Qed.

(** A final [FILE] raises [IndexError] when no token is non-numeric. *)
Lemma scan_pure_last_file toks :
  forall f s n,
    last toks = Some "FILE"%string -> Forall (fun t => ~ nonnumeric t) toks ->
    snd (scan_pure toks f s n) = Raise IndexError.
Proof.
  induction toks as [|t rest IH]; intros f s n Hlast Hnn; [done|].
  inversion Hnn as [|? ? Ht Hrest]; subst. simpl.
  destruct rest as [|x rest'].
  - simpl in Hlast. injection Hlast as ->. reflexivity.
  - assert (Hl : last (x :: rest') = Some "FILE"%string) by exact Hlast.
    destruct (classify t) eqn:Hc.
    + by apply IH.
    + specialize (IH f s n Hl Hrest). by destruct (scan_pure (x :: rest') f s n).
    + by apply IH.
    + by apply classify_nonnumeric in Hc.
    + by apply IH.
Qed.

(** Tokens other than [FILE] leave the file name alone. *)
Lemma scan_pure_no_file toks :
  forall f s n f' s' n',
    "FILE"%string ∉ toks ->
    snd (scan_pure toks f s n) = Ok (f', s', n') -> f' = f.
Proof.
  induction toks as [|t rest IH]; intros f s n f' s' n' Hnf Hr; simpl in Hr.
  - by injection Hr as -> _ _.
  - apply not_elem_of_cons in Hnf as [Hne Hnf].
    destruct (classify t) eqn:Hc.
    + by apply classify_File_inv in Hc.
    + destruct (scan_pure rest f s n) eqn:Hs. simpl in Hr.
      eapply IH; [done|]. by rewrite Hs.
    + by eapply IH.
    + done.
    + by eapply IH.
Qed.

(** Tokens that are not three-part [LINE] tokens leave the numbers alone. *)
Lemma scan_pure_no_numbers toks :
  forall f s n f' s' n',
    Forall (fun t => line_prefixed t -> ~ three_parts t) toks ->
    snd (scan_pure toks f s n) = Ok (f', s', n') -> s' = s /\ n' = n.
Proof.
  induction toks as [|t rest IH]; intros f s n f' s' n' Hall Hr; simpl in Hr.
  - by injection Hr as _ -> ->.
  - inversion Hall as [|? ? Ht Hrest]; subst.
    destruct (classify t) eqn:Hc.
    + destruct rest; [done | by eapply IH].
    + destruct (scan_pure rest f s n) eqn:Hs. simpl in Hr.
      eapply IH; [done|]. by rewrite Hs.
    + apply classify_numbers in Hc as (Hl & H3 & _). by destruct (Ht Hl).
    + done.
    + by eapply IH.
Qed.

(** The outcome of the loop is the outcome of its last part, from the
    values the variables have there. *)
Lemma scan_pure_suffix pre :
  forall rest f s n r,
    rest <> [] ->
    snd (scan_pure (pre ++ rest) f s n) = Ok r ->
    exists f1 s1 n1, snd (scan_pure rest f1 s1 n1) = Ok r.
Proof.
  induction pre as [|t pre IH]; intros rest f s n r Hne Hr; [by eauto|].
  simpl in Hr. destruct (classify t) eqn:Hc.
  - destruct (pre ++ rest) eqn:Happ; [done|]. rewrite <- Happ in Hr. by eapply IH.
  - destruct (scan_pure (pre ++ rest) f s n) eqn:Hs. simpl in Hr.
    eapply (IH rest f s n); [done|]. by rewrite Hs.
  - by eapply IH.
  - done.
  - by eapply IH.
Qed.

Lemma scan_pure_plain_cons t rest f s n :
  plain t -> scan_pure (t :: rest) f s n = scan_pure rest f s n.
Proof. intros Ht. simpl. by rewrite (classify_plain _ Ht). Qed.

Lemma scan_pure_FILE_cons x rest f s n :
  scan_pure ("FILE"%string :: x :: rest) f s n = scan_pure (x :: rest) x s n.
Proof. reflexivity. Qed.

Lemma scan_pure_wellformed_cons tok a b rest f s n :
  wellformed tok a b -> scan_pure (tok :: rest) f s n = scan_pure rest f a b.
Proof. intros Hwf. simpl. by rewrite (classify_wellformed _ _ _ Hwf). Qed.

(** The token after the last [FILE] is the file name. *)
Lemma scan_pure_last_FILE pre name post f s n f' s' n' :
  "FILE"%string ∉ name :: post ->
  snd (scan_pure (pre ++ "FILE"%string :: name :: post) f s n) = Ok (f', s', n') ->
  f' = name.
Proof.
  intros Hnf Hr.
  apply scan_pure_suffix in Hr as (f1 & s1 & n1 & Hr); [|done].
  rewrite scan_pure_FILE_cons in Hr. by apply scan_pure_no_file in Hr.
Qed.

(** The last three-part [LINE] token gives the numbers. *)
Lemma scan_pure_last_LINE pre tok post a b f s n f' s' n' :
  wellformed tok a b ->
  Forall (fun t => line_prefixed t -> ~ three_parts t) post ->
  snd (scan_pure (pre ++ tok :: post) f s n) = Ok (f', s', n') ->
  s' = a /\ n' = b.
Proof.
  intros Hwf Hpost Hr.
  apply scan_pure_suffix in Hr as (f1 & s1 & n1 & Hr); [|done].
  rewrite (scan_pure_wellformed_cons _ _ _ _ _ _ _ Hwf) in Hr.
  by apply scan_pure_no_numbers in Hr.
Qed.

(** The number of diagnostics of the loop: one per malformed token read. *)
Lemma scan_pure_no_malformed toks :
  forall f s n,
    Forall (fun t => ~ malformed t) toks -> fst (scan_pure toks f s n) = 0%nat.
Proof.
  induction toks as [|t rest IH]; intros f s n Hall; [done|].
  inversion Hall as [|? ? Ht Hrest]; subst. simpl.
  destruct (classify t) eqn:Hc.
  - destruct rest; [done | by apply IH].
  - by apply classify_Malformed_inv in Hc.
  - by apply IH.
  - done.
  - by apply IH.
Qed.

(** When every [LINE] token is malformed: the numbers stay as they are,
    only [IndexError] can be raised, and a diagnostic is printed as soon
    as there is one such token. *)
Lemma scan_pure_all_malformed toks :
  forall f s n,
    Forall (fun t => line_prefixed t -> ~ three_parts t) toks ->
    (snd (scan_pure toks f s n) = Raise IndexError \/
     exists f', snd (scan_pure toks f s n) = Ok (f', s, n)) /\
    (Exists line_prefixed toks -> (1 <= fst (scan_pure toks f s n))%nat).
Proof.
  induction toks as [|t rest IH]; intros f s n Hall.
  - simpl. split; [eauto | by inversion 1].
  - inversion Hall as [|? ? Ht Hrest]; subst. simpl.
    destruct (classify t) eqn:Hc.
    + apply classify_File_inv in Hc as ->.
      assert (Hx : Exists line_prefixed ("FILE"%string :: rest) ->
                   Exists line_prefixed rest).
      { inversion 1 as [? ? Hl|]; subst; [discriminate Hl | done]. }
      destruct rest as [|x rest'].
      * simpl. split; [by left|]. intros H%Hx. by inversion H.
      * destruct (IH x s n Hrest) as [IH1 IH2]. split; [done | auto].
    + destruct (IH f s n Hrest) as [IH1 _].
      destruct (scan_pure rest f s n) as [k r]. simpl in *. split; [done | lia].
    + apply classify_numbers in Hc as (Hl & H3 & _). by destruct (Ht Hl).
    + apply classify_nonnumeric in Hc as (Hl & H3 & _). by destruct (Ht Hl).
    + destruct (IH f s n Hrest) as [IH1 IH2]. split; [done|].
      inversion 1 as [? ? Hl|]; subst; [|auto].
      apply classify_Other_inv in Hc as [_ Hc]. by destruct Hc.
Qed.

(** When every [LINE] token is malformed, the loop prints one diagnostic
    per [LINE] token, also when the [IndexError] of a final [FILE] ends
    it: that [FILE] is the last token. *)
Lemma scan_pure_count_malformed toks :
  forall f s n,
    Forall (fun t => line_prefixed t -> ~ three_parts t) toks ->
    fst (scan_pure toks f s n) = length (filter line_prefixed toks).
Proof.
  induction toks as [|t rest IH]; intros f s n Hall; [done|].
  inversion Hall as [|? ? Ht Hrest]; subst. simpl scan_pure.
  rewrite filter_cons.
  destruct (classify t) eqn:Hc.
  - apply classify_File_inv in Hc as ->.
    rewrite decide_False by (intros Hl; discriminate Hl).
    destruct rest as [|x rest']; [done | by apply IH].
  - apply classify_Malformed_inv in Hc as [Hl _].
    rewrite decide_True by done.
    specialize (IH f s n Hrest).
    destruct (scan_pure rest f s n) as [k r]. simpl in *. by rewrite IH.
  - apply classify_numbers in Hc as (Hl & H3 & _). by destruct (Ht Hl).
  - apply classify_nonnumeric in Hc as (Hl & H3 & _). by destruct (Ht Hl).
  - apply classify_Other_inv in Hc as [_ Hl].
    rewrite decide_False by done. by apply IH.
Qed.

(** The file name the loop leaves is the one it started from or a token. *)
Lemma scan_pure_filename toks :
  forall f s n f' s' n',
    snd (scan_pure toks f s n) = Ok (f', s', n') -> f' = f \/ f' ∈ toks.
Proof.
  induction toks as [|t rest IH]; intros f s n f' s' n' Hr; simpl in Hr.
  - left. by injection Hr as -> _ _.
  - destruct (classify t) eqn:Hc.
    + destruct rest as [|x rest']; [done|].
      apply IH in Hr as [-> | Hr]; right; apply elem_of_cons; right;
        [apply list_elem_of_here | done].
    + destruct (scan_pure rest f s n) eqn:Hs. simpl in Hr.
      destruct (IH f s n f' s' n') as [-> | Hin]; [by rewrite Hs | by left |].
      right. by apply elem_of_cons; right.
    + apply IH in Hr as [-> | Hr]; [by left|]. right. by apply elem_of_cons; right.
    + done.
    + apply IH in Hr as [-> | Hr]; [by left|]. right. by apply elem_of_cons; right.
Qed.

Lemma scan_pure_filename_found toks :
  forall f s n f' s' n',
    "FILE"%string ∈ toks ->
    snd (scan_pure toks f s n) = Ok (f', s', n') -> f' ∈ toks.
Proof.
  induction toks as [|t rest IH]; intros f s n f' s' n' Hin Hr.
  - by apply elem_of_nil in Hin.
  - simpl in Hr. apply elem_of_cons. right.
    destruct (classify t) eqn:Hc.
    + destruct rest as [|x rest']; [done|].
      apply scan_pure_filename in Hr as [-> | Hr]; [by left | done].
    + apply elem_of_cons in Hin as [<- | Hin]; [by rewrite classify_file in Hc|].
      destruct (scan_pure rest f s n) eqn:Hs. simpl in Hr.
      eapply (IH f s n); [done|]. by rewrite Hs.
    + apply elem_of_cons in Hin as [<- | Hin]; [by rewrite classify_file in Hc|].
      by eapply IH.
    + done.
    + apply elem_of_cons in Hin as [<- | Hin]; [by rewrite classify_file in Hc|].
      by eapply IH.
Qed.

Lemma no_filename_not_bad line k : no_filename line ∉ repeat (bad_delimiter line) k.
Proof.
  induction k as [|k IH]; simpl; [apply not_elem_of_nil|].
  apply not_elem_of_cons. split; [discriminate | done].
Qed.

(** ** The loop over the lines *)

Lemma fmt_record_not_nl s n f : fmt_record s n f <> nl.
Proof.
  unfold fmt_record, nl. destruct (fmt_d s) as [|c r]; simpl; [discriminate|].
  intros [= _ H]. by destruct r.
Qed.

Lemma for_each_invariant {A S} (P : world -> Prop) (body : A -> S -> M S) :
  (forall x s w, P w -> P (fst (body x s w))) ->
  forall xs s w, P w -> P (fst (for_each body xs s w)).
Proof.
  intros Hbody. induction xs as [|x xs IH]; intros s w Hw; simpl; [done|].
  unfold bind. specialize (Hbody x s w Hw).
  destruct (body x s w) as [w' [s'|e]]; simpl in *; [by apply IH | done].
Qed.

Lemma for_each_raise {A S} (body : A -> S -> M S) x xs s w w' e :
  body x s w = (w', Raise e) -> for_each body (x :: xs) s w = (w', Raise e).
Proof. intros H. simpl. unfold bind. by rewrite H. Qed.

Lemma for_each_step {A S} (body : A -> S -> M S) x xs s w w' s' :
  body x s w = (w', Ok s') ->
  for_each body (x :: xs) s w = for_each body xs s' w'.
Proof. intros H. simpl. unfold bind. by rewrite H. Qed.

Lemma append_cons c a b : String c a +:+ b = String c (a +:+ b).
Proof. reflexivity. Qed.

Lemma append_assoc a : forall b c, (a +:+ b) +:+ c = a +:+ (b +:+ c).
Proof.
  induction a as [|ch a IH]; intros b c; [reflexivity|].
  by rewrite !append_cons, IH.
Qed.

Lemma append_nil_r a : a +:+ "" = a.
Proof. induction a as [|ch a IH]; [reflexivity|]. by rewrite append_cons, IH. Qed.

Lemma tidy_nil : tidy [].
Proof. split; [done|]. intros l1 l2 H. by destruct l1. Qed.

Lemma tidy_snoc_record ws r : tidy ws -> r <> nl -> tidy (ws ++ [r]).
Proof.
  intros [Hh Ha] Hr. split.
  - destruct ws; simpl in *; congruence.
  - intros l1 l2 Heq. destruct l2 as [|x l2 _] using rev_ind.
    + change (l1 ++ [nl; nl]) with (l1 ++ [nl] ++ [nl]) in Heq.
      rewrite app_assoc in Heq. apply app_inj_tail in Heq as [_ ->]. done.
    + change (l1 ++ nl :: nl :: l2 ++ [x]) with (l1 ++ (nl :: nl :: l2) ++ [x]) in Heq.
      rewrite app_assoc in Heq. apply app_inj_tail in Heq as [-> _].
      by apply (Ha l1 l2).
Qed.

Lemma tidy_snoc_nl ws : tidy ws -> ends_with_record ws -> tidy (ws ++ [nl]).
Proof.
  intros [Hh Ha] (ws' & r & -> & Hr). split.
  - destruct ws'; simpl in *; congruence.
  - intros l1 l2 Heq. destruct l2 as [|x l2 _] using rev_ind.
    + change (l1 ++ [nl; nl]) with (l1 ++ [nl] ++ [nl]) in Heq.
      rewrite app_assoc in Heq. apply app_inj_tail in Heq as [Heq _].
      apply app_inj_tail in Heq as [_ ->]. done.
    + change (l1 ++ nl :: nl :: l2 ++ [x]) with (l1 ++ (nl :: nl :: l2) ++ [x]) in Heq.
      rewrite app_assoc in Heq. apply app_inj_tail in Heq as [Heq _].
      by apply (Ha l1 l2).
Qed.

Section Lines.

(** The path of the output file, fixed for the run. *)
Variable out : string.

(** What one line does to the world and to the flag: it prints and
    keeps the flag, or prints and raises, or writes the one blank line
    a set flag allows, or prints and writes a record. *)
Lemma do_line_world line wb w :
  exists msgs,
    do_line out line wb w = (printed msgs w, Ok wb) \/
    (exists e, do_line out line wb w = (printed msgs w, Raise e)) \/
    (wb = true /\ do_line out line wb w = (wrote out nl w, Ok false)) \/
    (exists s n f,
        do_line out line wb w =
        (wrote out (fmt_record s n f) (printed msgs w), Ok true)).
Proof.
  destruct (py_split line) as [|t ts] eqn:Hs.
  - rewrite do_line_blank by done. exists []. rewrite printed_nil.
    destruct wb; auto.
  - rewrite do_line_data by (unfold blank; congruence).
    unfold line_outcome.
    destruct (scan_pure (py_split line) "" (-1) (-1)) as [k [[[f s] n]|e]]; simpl.
    + exists (repeat (bad_delimiter line) k ++ field_diags line f s n).
      rewrite printed_app. destruct (fields_ok f s n); eauto 10.
    + exists (repeat (bad_delimiter line) k). eauto.
Qed.

(** The same, on the record of the writes. *)
Lemma do_line_cases line wb w :
  let w' := fst (do_line out line wb w) in
  let r := snd (do_line out line wb w) in
  (written w' = written w /\ (r = Ok wb \/ exists e, r = Raise e)) \/
  (wb = true /\ written w' = written w ++ [nl] /\ r = Ok false) \/
  (exists s n f, written w' = written w ++ [fmt_record s n f] /\ r = Ok true).
Proof.
  destruct (do_line_world line wb w)
    as [msgs [H|[[e H]|[[Hwb H]|(s & n & f & H)]]]]; rewrite H; simpl; eauto 10.
Qed.

Lemma do_line_opened line wb w :
  opened (fst (do_line out line wb w)) = opened w.
Proof.
  destruct (do_line_world line wb w)
    as [msgs [H|[[e H]|[[Hwb H]|(s & n & f & H)]]]]; by rewrite H.
Qed.

Lemma loop_opened lines wb w :
  opened (fst (for_each (do_line out) lines wb w)) = opened w.
Proof.
  apply (for_each_invariant (fun w' => opened w' = opened w)); [|done].
  intros x s w1 <-. apply do_line_opened.
Qed.

(** Blank lines: nothing from a cleared flag, one blank line from a set
    flag. *)
Lemma blanks_from_false bs w :
  Forall blank bs -> for_each (do_line out) bs false w = (w, Ok false).
Proof.
  induction 1 as [|b bs Hb _ IH]; [done|].
  rewrite (for_each_step _ _ _ _ _ w false); [done|]. by rewrite do_line_blank.
Qed.

Lemma blanks_from_true bs w :
  bs <> [] -> Forall blank bs ->
  for_each (do_line out) bs true w = (wrote out nl w, Ok false).
Proof.
  intros Hne Hall. destruct Hall as [|b bs Hb Hbs]; [done|].
  rewrite (for_each_step _ _ _ _ _ (wrote out nl w) false).
  - by apply blanks_from_false.
  - by rewrite do_line_blank.
Qed.

(** The record of the writes only grows. *)
Lemma loop_written_grows lines :
  forall wb w,
    exists rest,
      written (fst (for_each (do_line out) lines wb w)) = written w ++ rest.
Proof.
  induction lines as [|l lines IH]; intros wb w; simpl.
  - exists []. by rewrite app_nil_r.
  - unfold bind.
    destruct (do_line_cases l wb w) as [[Hw _]|[(_ & Hw & _)|(s & n & f & Hw & _)]];
      destruct (do_line out l wb w) as [w' [wb'|e]]; simpl in *;
      try (destruct (IH wb' w') as [rest Hrest]; rewrite Hrest, Hw, <- ?app_assoc);
      try rewrite Hw; eauto.
    exists []. by rewrite app_nil_r.
Qed.

(** The invariant of the loop: what is written is tidy, and ends with a
    record whenever the flag is set. *)
Lemma loop_tidy lines :
  forall wb w base ws,
    written w = base ++ ws -> tidy ws -> (wb = true -> ends_with_record ws) ->
    exists ws', written (fst (for_each (do_line out) lines wb w)) = base ++ ws' /\
                tidy ws'.
Proof.
  induction lines as [|l lines IH]; intros wb w base ws Hw Ht Hf; simpl; [by eauto|].
  unfold bind. pose proof (do_line_cases l wb w) as Hc.
  destruct (do_line out l wb w) as [w' [wb'|e]]; simpl in Hc;
    destruct Hc as [[Hw' Hr]|[(-> & Hw' & Hr)|(s & n & f & Hw' & Hr)]]; simpl.
  - destruct Hr as [[= ->]|[e He]]; [|done]. eapply IH; [|done|done]. congruence.
  - injection Hr as ->. apply (IH false w' base (ws ++ [nl])).
    + rewrite Hw', Hw. by rewrite app_assoc.
    + apply tidy_snoc_nl; auto.
    + done.
  - injection Hr as ->.
    apply (IH true w' base (ws ++ [fmt_record s n f])).
    + rewrite Hw', Hw. by rewrite app_assoc.
    + apply tidy_snoc_record; [done | apply fmt_record_not_nl].
    + intros _. exists ws, (fmt_record s n f).
      split; [done | apply fmt_record_not_nl].
  - exists ws. split; [congruence | done].
  - done.
  - done.
Qed.

(** The output file holds what it held, then the text of the writes. *)
Lemma loop_content lines :
  forall wb w c,
    files w !! out = Some c ->
    exists ws,
      written (fst (for_each (do_line out) lines wb w)) = written w ++ ws /\
      files (fst (for_each (do_line out) lines wb w)) !! out = Some (c +:+ text ws).
Proof.
  induction lines as [|l lines IH]; intros wb w c Hc; simpl.
  { exists []. simpl. by rewrite app_nil_r, append_nil_r. }
  unfold bind.
  destruct (do_line_world l wb w)
    as [msgs [H|[[e H]|[[Hwb H]|(s & n & f & H)]]]]; rewrite H.
  - apply (IH wb (printed msgs w) c Hc).
  - exists []. simpl. by rewrite app_nil_r, append_nil_r.
  - destruct (IH false (wrote out nl w) (c +:+ nl)) as (ws & Hw & Hf).
    { simpl. by rewrite lookup_insert_eq, Hc. }
    exists (nl :: ws). rewrite Hw, Hf. simpl.
    by rewrite <- app_assoc, append_assoc.
  - destruct (IH true (wrote out (fmt_record s n f) (printed msgs w))
                (c +:+ fmt_record s n f)) as (ws & Hw & Hf).
    { simpl. by rewrite lookup_insert_eq, Hc. }
    exists (fmt_record s n f :: ws). rewrite Hw, Hf. simpl.
    by rewrite <- app_assoc, append_assoc.
Qed.

End Lines.

(** ** The converter around its loop *)

Lemma convert_file_spec input output w :
  convert_file input output w =
  match files w !! input with
  | None => (w, Raise IOError)
  | Some _ =>
      if decide (output ∈ unwritable w)
      then (World (files w) (unwritable w) (input :: opened w) (stdout w) (written w),
            Raise IOError)
      else
        match for_each (do_line output) (input_lines input output w) false
                (opening input output w) with
        | (w', Ok _) => (closing input output w', Ok tt)
        | (w', Raise e) => (w', Raise e)
        end
  end.
Proof.
  unfold convert_file, bind, open_r, open_w, read_lines, close, ret.
  destruct (files w !! input) eqn:Hin; [|done]. simpl.
  destruct (decide (output ∈ unwritable w)); [done|]. simpl.
  unfold input_lines, opening.
  destruct (for_each _ _ _ _) as [w' [wb|e]]; reflexivity.
Qed.

Lemma convert_file_written input output w :
  is_Some (files w !! input) -> output ∉ unwritable w ->
  written (fst (convert_file input output w)) =
  written (fst (for_each (do_line output) (input_lines input output w) false
                  (opening input output w))).
Proof.
  intros [c Hin] Hout. rewrite convert_file_spec, Hin.
  destruct (decide (output ∈ unwritable w)); [done|].
  destruct (for_each (do_line output) (input_lines input output w) false
              (opening input output w)) as [w' [?|?]]; reflexivity.
Qed.

(** After a run that opened its files, the output file holds the text of
    what the run wrote. *)
Lemma convert_file_content input output w :
  is_Some (files w !! input) -> output ∉ unwritable w ->
  exists ws,
    written (fst (convert_file input output w)) = written w ++ ws /\
    files (fst (convert_file input output w)) !! output = Some (text ws).
Proof.
  intros [c Hin] Hout. rewrite convert_file_spec, Hin.
  destruct (decide (output ∈ unwritable w)); [done|].
  destruct (loop_content output (input_lines input output w) false
              (opening input output w) "") as (ws & Hw & Hf).
  { simpl. by rewrite lookup_insert_eq. }
  exists ws.
  destruct (for_each (do_line output) (input_lines input output w) false
              (opening input output w)) as [w' [?|?]]; simpl in *; by split.
Qed.

Lemma remove_both input output o :
  remove_one output (remove_one input (output :: input :: o)) = o.
Proof.
  simpl. destruct (decide (input = output)) as [->|Hne]; simpl.
  - by destruct (decide (output = output)).
  - destruct (decide (input = input)); [|done]. simpl.
    by destruct (decide (output = output)).
Qed.

(** ** The lines of the output file *)

Lemma no_newline_app a b :
  no_newline (a +:+ b) = no_newline a && no_newline b.
Proof.
  induction a as [|c a IH]; [reflexivity|].
  rewrite append_cons. simpl. by rewrite IH, andb_assoc.
Qed.

Lemma no_space_snoc a c :
  no_space (a +:+ String c "") = no_space a && negb (is_space c).
Proof.
  induction a as [|c' a IH]; simpl.
  - by rewrite andb_true_r.
  - by rewrite IH, andb_assoc.
Qed.

Lemma no_space_no_newline s : no_space s = true -> no_newline s = true.
Proof.
  induction s as [|c s IH]; [done|]. simpl.
  intros [Hc Hs]%andb_true_iff. rewrite (IH Hs), andb_true_r.
  apply bool_decide_eq_true. intros ->. discriminate Hc.
Qed.

Lemma split_ws_no_space s :
  forall cur,
    no_space cur = true -> Forall (fun t => no_space t = true) (split_ws cur s).
Proof.
  induction s as [|c s IH]; intros cur Hcur; simpl.
  - destruct (decide (cur = ""%string)); auto.
  - destruct (is_space c) eqn:Hc.
    + destruct (decide (cur = ""%string)); [by apply IH|].
      constructor; [done | by apply IH].
    + apply IH. by rewrite no_space_snoc, Hcur, Hc.
Qed.

Lemma py_split_no_newline line t : t ∈ py_split line -> no_newline t = true.
Proof.
  intros Hin. apply no_space_no_newline.
  pose proof (split_ws_no_space line "" eq_refl) as H.
  rewrite Forall_forall in H. by apply H.
Qed.

Lemma string_of_uint_no_newline d : no_newline (NilEmpty.string_of_uint d) = true.
Proof. induction d; simpl; try done; by rewrite IHd. Qed.

Lemma fmt_d_no_newline z : no_newline (fmt_d z) = true.
Proof.
  unfold fmt_d, NilZero.string_of_int, NilZero.string_of_uint.
  destruct (Z.to_int z) as [d|d].
  - destruct d; try done; apply (string_of_uint_no_newline (_ d)).
  - simpl. destruct d; try done; apply (string_of_uint_no_newline (_ d)).
Qed.

Lemma one_line_nl : one_line nl.
Proof. by exists ""%string. Qed.

Lemma one_line_record s n f :
  no_newline f = true -> one_line (fmt_record s n f).
Proof.
  intros Hf. exists (fmt_d s +:+ "," +:+ fmt_d n +:+ "," +:+ f). split.
  - unfold fmt_record. by rewrite !append_assoc.
  - rewrite !no_newline_app, !fmt_d_no_newline, Hf. reflexivity.
Qed.

(** Reading a line back: the text up to the first newline. *)
Lemma lines_from_line body :
  forall cur rest,
    no_newline body = true ->
    lines_from cur (body +:+ nl +:+ rest) = (cur +:+ body +:+ nl) :: lines_from "" rest.
Proof.
  induction body as [|c body IH]; intros cur rest Hb.
  - reflexivity.
  - simpl in Hb. apply andb_true_iff in Hb as [Hc Hb].
    apply bool_decide_eq_true in Hc.
    change (String c body +:+ nl +:+ rest) with (String c (body +:+ nl +:+ rest)).
    cbn [lines_from]. rewrite decide_False by done.
    rewrite (IH _ _ Hb). f_equal.
    by rewrite append_assoc.
Qed.

(** The lines of a text made of one-line writes are these writes. *)
Lemma file_lines_text ws : Forall one_line ws -> file_lines (text ws) = ws.
Proof.
  unfold file_lines. induction 1 as [|x ws (body & -> & Hb) _ IH]; [done|].
  simpl. rewrite append_assoc, (lines_from_line body "" _ Hb). by rewrite IH.
Qed.

(** What a line writes is made of whole lines. *)
Lemma do_line_one_line out line wb w :
  exists ws,
    written (fst (do_line out line wb w)) = written w ++ ws /\ Forall one_line ws.
Proof.
  destruct (py_split line) as [|t ts] eqn:Hs.
  - rewrite do_line_blank by done. destruct wb; simpl.
    + exists [nl]. split; [done|]. repeat constructor. apply one_line_nl.
    + exists []. by rewrite app_nil_r.
  - rewrite do_line_data by (unfold blank; congruence).
    unfold line_outcome.
    pose proof (scan_pure_filename (py_split line) "" (-1) (-1)) as Hfn.
    destruct (scan_pure (py_split line) "" (-1) (-1)) as [k [[[f s] n]|e]]; simpl.
    2:{ exists []. by rewrite app_nil_r. }
    destruct (fields_ok f s n) eqn:Hok; simpl.
    2:{ exists []. by rewrite app_nil_r. }
    exists [fmt_record s n f]. split; [done|]. repeat constructor.
    apply one_line_record.
    destruct (Hfn f s n eq_refl) as [-> | Hin]; [done|].
    by apply (py_split_no_newline line).
Qed.

Lemma loop_one_line out lines :
  forall wb w,
    exists ws,
      written (fst (for_each (do_line out) lines wb w)) = written w ++ ws /\
      Forall one_line ws.
Proof.
  induction lines as [|l lines IH]; intros wb w; simpl.
  { exists []. by rewrite app_nil_r. }
  unfold bind. destruct (do_line_one_line out l wb w) as (ws1 & Hw1 & H1).
  destruct (do_line out l wb w) as [w' [wb'|e]]; simpl in *; [|by eauto].
  destruct (IH wb' w') as (ws2 & Hw2 & H2).
  exists (ws1 ++ ws2). rewrite Hw2, Hw1, <- app_assoc. split; [done|].
  by apply Forall_app.
Qed.

(** After a run that opened its files, reading the output file line by
    line gives back the writes of the run, one line each. *)
Lemma convert_file_output_lines input output w :
  is_Some (files w !! input) -> output ∉ unwritable w ->
  exists ws c,
    written (fst (convert_file input output w)) = written w ++ ws /\
    files (fst (convert_file input output w)) !! output = Some c /\
    file_lines c = ws.
Proof.
  intros Hin Hout.
  destruct (convert_file_content input output w Hin Hout) as (ws & Hw & Hf).
  exists ws, (text ws). split; [done|]. split; [done|].
  apply file_lines_text.
  rewrite convert_file_written in Hw by done.
  destruct (loop_one_line output (input_lines input output w) false
              (opening input output w)) as (ws' & Hw' & H').
  rewrite Hw in Hw'. simpl in Hw'. by apply app_inv_head in Hw' as ->.
Qed.

(** * The claims *)

Lemma wellformed_10_5 : wellformed "LINE:10:5" 10 5.
Proof. repeat split. Qed.

Lemma last_after_FILE fpre name fpost :
  "FILE"%string ∉ name :: fpost ->
  last (fpre ++ "FILE"%string :: name :: fpost) <> Some "FILE"%string.
Proof.
  intros Hnf. rewrite last_app_cons, last_cons_cons.
  intros Hl. by apply last_Some_elem_of in Hl.
Qed.

(** C1 (as amended).  A line whose tokens hold the adjacent pair
    [FILE foo.c] and the token [LINE:10:5], in either order, where no
    later token is [FILE], no later [LINE]-prefixed token splits into
    three parts, and no three-part [LINE] token of the line is
    non-numeric: the line writes exactly the record [10,5,foo.c] and a
    newline and sets the flag; it prints nothing when no token of the
    line is a malformed [LINE] token. *)
Theorem C1_file_and_line_tokens out line wb w fpre fpost pre post :
  py_split line = fpre ++ "FILE"%string :: "foo.c"%string :: fpost ->
  "FILE"%string ∉ fpost ->
  py_split line = pre ++ "LINE:10:5"%string :: post ->
  Forall (fun t => line_prefixed t -> ~ three_parts t) post ->
  Forall (fun t => ~ nonnumeric t) (py_split line) ->
  exists k,
    do_line out line wb w =
      (wrote out ("10,5,foo.c" +:+ nl) (printed (repeat (bad_delimiter line) k) w),
       Ok true) /\
    (Forall (fun t => ~ malformed t) (py_split line) -> k = 0%nat).
Proof.
  intros Hfile Hnf Hline Hpost Hnn.
  assert (Hnf' : "FILE"%string ∉ "foo.c"%string :: fpost).
  { apply not_elem_of_cons. split; [discriminate | done]. }
  assert (Hlast : last (py_split line) <> Some "FILE"%string).
  { rewrite Hfile. by apply last_after_FILE. }
  destruct (scan_pure_completes (py_split line) "" (-1) (-1) Hlast Hnn)
    as [[[f s] n] Hr].
  assert (Hf : f = "foo.c"%string).
  { rewrite Hfile in Hr. by eapply scan_pure_last_FILE. }
  assert (Hnum : s = 10 /\ n = 5).
  { rewrite Hline in Hr.
    eapply scan_pure_last_LINE; [apply wellformed_10_5 | done | done]. }
  destruct Hnum as [-> ->]. subst f.
  pose proof (scan_pure_no_malformed (py_split line) "" (-1) (-1)) as Hk.
  rewrite do_line_data by (unfold blank; rewrite Hline; by destruct pre).
  unfold line_outcome.
  destruct (scan_pure (py_split line) "" (-1) (-1)) as [k r]. simpl in *. subst r.
  exists k. split; [|done].
  simpl. by rewrite printed_nil.
Qed.

Lemma C1_file_and_line_tokens_witness :
  exists k,
    do_line "out" ("x LINE:10:5 FILE bar.c y FILE foo.c z" +:+ nl) false (world_of ∅) =
      (wrote "out" ("10,5,foo.c" +:+ nl)
         (printed (repeat (bad_delimiter ("x LINE:10:5 FILE bar.c y FILE foo.c z" +:+ nl)) k)
            (world_of ∅)),
       Ok true) /\
    (Forall (fun t => ~ malformed t)
       (py_split ("x LINE:10:5 FILE bar.c y FILE foo.c z" +:+ nl)) -> k = 0%nat).
Proof.
  apply (C1_file_and_line_tokens "out" _ false (world_of ∅)
           ["x"; "LINE:10:5"; "FILE"; "bar.c"; "y"]%string ["z"%string]
           ["x"%string] ["FILE"; "bar.c"; "y"; "FILE"; "foo.c"; "z"]%string).
  - reflexivity.
  - not_in_literals.
  - reflexivity.
  - repeat constructor; intros Hl; discriminate Hl.
  - change (py_split ("x LINE:10:5 FILE bar.c y FILE foo.c z" +:+ nl))
      with ["x"; "LINE:10:5"; "FILE"; "bar.c"; "y"; "FILE"; "foo.c"; "z"]%string.
    no_nonnumeric.
Defined.

(** C1 as stated fails: the other tokens may hold a later [FILE] pair,
    and the record then carries that file name. *)
Lemma C1_counterexample :
  let line := "FILE foo.c LINE:10:5 FILE bar.c" +:+ nl in
  let w' := fst (do_line "out" line false (world_of ∅)) in
  py_split line = [] ++ ["FILE"; "foo.c"] ++ [] ++ ["LINE:10:5"] ++ ["FILE"; "bar.c"]
  /\ written w' = ["10,5,bar.c" +:+ nl]
  /\ ("10,5,foo.c" +:+ nl) ∉ written w'.
Proof.
  split; [vm_compute; reflexivity|]. split; [vm_compute; reflexivity|].
  change (("10,5,foo.c" +:+ nl) ∉ ["10,5,bar.c" +:+ nl]). not_in_literals.
Qed.

Lemma produces_of_scan line k f s n :
  py_split line <> [] ->
  scan_pure (py_split line) "" (-1) (-1) = (k, Ok (f, s, n)) ->
  fields_ok f s n = true ->
  produces line (fmt_record s n f).
Proof.
  intros Hne Hscan Hok out wb w. rewrite do_line_data by done.
  rewrite Hscan. unfold line_outcome. simpl. rewrite Hok. eauto.
Qed.

Lemma loop_one_blank_between out before l1 blanks l2 after r1 r2 wb w w1 wb1 :
  for_each (do_line out) before wb w = (w1, Ok wb1) ->
  produces l1 r1 -> blanks <> [] -> Forall blank blanks -> produces l2 r2 ->
  exists rest,
    written (fst (for_each (do_line out) (before ++ l1 :: blanks ++ l2 :: after) wb w))
    = written w1 ++ r1 :: nl :: r2 :: rest.
Proof.
  intros Hb Hp1 Hne Hbl Hp2.
  rewrite for_each_app. unfold bind at 1. rewrite Hb.
  destruct (Hp1 out wb1 w1) as (w2 & H2 & Hw2).
  rewrite (for_each_step _ _ _ _ _ _ _ H2).
  rewrite for_each_app. unfold bind at 1. rewrite blanks_from_true by done.
  destruct (Hp2 out false (wrote out nl w2)) as (w4 & H4 & Hw4).
  rewrite (for_each_step _ _ _ _ _ _ _ H4).
  destruct (loop_written_grows out after true w4) as [rest ->].
  exists rest. rewrite Hw4. simpl. rewrite Hw2.
  by rewrite <- !app_assoc.
Qed.

(** C2.  Two lines that each produce a record, with one or more blank
    lines between them, in an input whose earlier lines are processed
    without error: the writes of the run are those of the earlier lines,
    then the first record, one blank line, the second record, and what
    the later lines add. *)
Theorem C2_one_blank_between input output w before l1 blanks l2 after r1 r2 w1 wb1 :
  is_Some (files w !! input) -> output ∉ unwritable w ->
  input_lines input output w = before ++ l1 :: blanks ++ l2 :: after ->
  for_each (do_line output) before false (opening input output w) = (w1, Ok wb1) ->
  produces l1 r1 -> blanks <> [] -> Forall blank blanks -> produces l2 r2 ->
  exists rest,
    written (fst (convert_file input output w))
    = written w1 ++ r1 :: nl :: r2 :: rest.
Proof.
  intros Hin Hout Hlines Hb Hp1 Hne Hbl Hp2.
  rewrite convert_file_written, Hlines by done.
  by apply loop_one_blank_between with (wb1 := wb1).
Qed.

Lemma C2_one_blank_between_witness :
  exists rest,
    written (fst (convert_file "in" "out" (world_of {[ "in"%string := spec_input ]})))
    = [] ++ ("1,3,test.c" +:+ nl) :: nl :: ("10,2,test.c" +:+ nl) :: rest.
Proof.
  apply (C2_one_blank_between "in" "out" (world_of {[ "in"%string := spec_input ]})
           [] ("FILE test.c LINE:1:3" +:+ nl) [nl] ("FILE test.c LINE:10:2" +:+ nl) []
           ("1,3,test.c" +:+ nl) ("10,2,test.c" +:+ nl)
           (opening "in" "out" (world_of {[ "in"%string := spec_input ]})) false).
  - by eexists.
  - set_solver.
  - vm_compute. reflexivity.
  - reflexivity.
  - apply (produces_of_scan _ 0 "test.c" 1 3); [discriminate | | ]; vm_compute; reflexivity.
  - discriminate.
  - repeat constructor.
  - apply (produces_of_scan _ 0 "test.c" 10 2); [discriminate | | ]; vm_compute; reflexivity.
Defined.

(** C3.  Whatever the input and whatever the outcome of the run, what
    convert writes does not begin with a blank line and has no two blank
    lines in a row; and when the two files could be opened, these writes
    are, one by one, the lines of the output file. *)
Theorem C3_no_leading_or_double_blank input output w :
  exists ws,
    written (fst (convert_file input output w)) = written w ++ ws /\
    head ws <> Some nl /\
    (forall l1 l2, ws <> l1 ++ nl :: nl :: l2) /\
    (is_Some (files w !! input) -> output ∉ unwritable w ->
     exists c,
       files (fst (convert_file input output w)) !! output = Some c /\
       file_lines c = ws).
Proof.
  destruct (files w !! input) as [c|] eqn:Hin.
  2:{ rewrite convert_file_spec, Hin. exists []. simpl. rewrite app_nil_r.
      split; [done|]. split; [done|]. split; [apply tidy_nil|]. by intros [? ?]. }
  destruct (decide (output ∈ unwritable w)) as [Hout|Hout].
  { rewrite convert_file_spec, Hin. rewrite decide_True by done.
    exists []. simpl. rewrite app_nil_r.
    split; [done|]. split; [done|]. split; [apply tidy_nil | done]. }
  assert (Hin' : is_Some (files w !! input)) by (by rewrite Hin).
  destruct (convert_file_output_lines input output w Hin' Hout)
    as (ws & c' & Hw & Hc & Hl).
  exists ws. split; [done|].
  destruct (loop_tidy output (input_lines input output w) false
              (opening input output w) (written w) [])
    as (ws' & Hw' & Ht1 & Ht2).
  { simpl. by rewrite app_nil_r. }
  { apply tidy_nil. }
  { done. }
  rewrite <- convert_file_written, Hw in Hw' by done.
  apply app_inv_head in Hw' as ->.
  split; [done|]. split; [done|]. intros _ _. by exists c'.
Qed.

Lemma C3_no_leading_or_double_blank_witness :
  exists c,
    files (fst (convert_file "in" "out" (world_of {[ "in"%string := spec_input ]})))
      !! "out"%string = Some c /\
    head (file_lines c) <> Some nl /\
    forall l1 l2, file_lines c <> l1 ++ nl :: nl :: l2.
Proof.
  destruct (C3_no_leading_or_double_blank "in" "out"
              (world_of {[ "in"%string := spec_input ]}))
    as (ws & _ & Hh & Ha & Hf).
  destruct Hf as (c & Hc & Hl).
  - by eexists.
  - apply not_elem_of_empty.
  - exists c. rewrite Hl. by repeat split.
Defined.

(** C4 (as amended).  A line with a [LINE]-prefixed token in which no
    [LINE]-prefixed token splits into three parts: the token loop prints
    the bad-delimiter diagnostic once per [LINE]-prefixed token, so at
    least once, and either ends with the start line and the number of
    lines unset (-1), after which the two missing-field diagnostics are
    printed, the flag is kept and nothing is written, or it is cut short
    by the [IndexError] of a final [FILE], again with nothing written. *)
Theorem C4_malformed_line_token out line wb w :
  Exists line_prefixed (py_split line) ->
  Forall (fun t => line_prefixed t -> ~ three_parts t) (py_split line) ->
  exists k,
    k = length (filter line_prefixed (py_split line)) /\
    (1 <= k)%nat /\
    ((scan_line line (py_split line) w =
        (printed (repeat (bad_delimiter line) k) w, Raise IndexError) /\
      do_line out line wb w =
        (printed (repeat (bad_delimiter line) k) w, Raise IndexError))
     \/
     (exists l msgs,
        scan_line line (py_split line) w =
          (printed (repeat (bad_delimiter line) k) w, Ok l) /\
        startline l = -1 /\ num_lines l = -1 /\
        do_line out line wb w =
          (printed msgs (printed (repeat (bad_delimiter line) k) w), Ok wb) /\
        no_startline line ∈ msgs /\ no_num_lines line ∈ msgs)).
Proof.
  intros Hex Hall.
  destruct (scan_pure_all_malformed (py_split line) "" (-1) (-1) Hall) as [Hr Hk].
  specialize (Hk Hex).
  pose proof (scan_pure_count_malformed (py_split line) "" (-1) (-1) Hall) as Hn.
  assert (Hnb : ~ blank line).
  { unfold blank. intros Hb. rewrite Hb in Hex. by inversion Hex. }
  rewrite do_line_data by done. rewrite scan_line_spec. unfold line_outcome.
  destruct (scan_pure (py_split line) "" (-1) (-1)) as [k r]. simpl in *.
  exists k. split; [done|]. split; [done|].
  destruct Hr as [-> | [f' ->]]; [by left|]. right.
  exists (Locals (length (py_split line)) f' (-1) (-1)),
         (field_diags line f' (-1) (-1)).
  simpl. repeat split.
  - unfold fields_ok. simpl. by rewrite andb_false_r.
  - unfold field_diags. simpl. set_solver.
  - unfold field_diags. simpl. set_solver.
Qed.

Lemma C4_malformed_line_token_witness :
  exists k,
    k = length (filter line_prefixed (py_split malformed_line)) /\
    (1 <= k)%nat /\
    ((scan_line malformed_line (py_split malformed_line) (world_of ∅) =
        (printed (repeat (bad_delimiter malformed_line) k) (world_of ∅),
         Raise IndexError) /\
      do_line "out" malformed_line false (world_of ∅) =
        (printed (repeat (bad_delimiter malformed_line) k) (world_of ∅),
         Raise IndexError))
     \/
     (exists l msgs,
        scan_line malformed_line (py_split malformed_line) (world_of ∅) =
          (printed (repeat (bad_delimiter malformed_line) k) (world_of ∅), Ok l) /\
        startline l = -1 /\ num_lines l = -1 /\
        do_line "out" malformed_line false (world_of ∅) =
          (printed msgs (printed (repeat (bad_delimiter malformed_line) k) (world_of ∅)),
           Ok false) /\
        no_startline malformed_line ∈ msgs /\ no_num_lines malformed_line ∈ msgs)).
Proof.
  apply (C4_malformed_line_token "out" malformed_line false (world_of ∅)).
  - apply Exists_exists. exists "LINE:10:5:extra"%string. split; [|reflexivity].
    vm_compute. set_solver.
  - change (py_split malformed_line)
      with ["FILE"%string; "a.c"%string; "LINE:10:5:extra"%string].
    repeat constructor; intros Hl H3; try discriminate Hl; discriminate H3.
Defined.

(** C4 as stated fails: a later three-part [LINE] token sets the two
    numbers, and the record is written. *)
Lemma C4_counterexample :
  let line := "LINE:10:5:extra LINE:1:2 FILE a.c" +:+ nl in
  "LINE:10:5:extra"%string ∈ py_split line /\
  malformed "LINE:10:5:extra" /\
  snd (scan_line line (py_split line) (world_of ∅)) = Ok (Locals 4 "a.c" 1 2) /\
  written (fst (do_line "out" line false (world_of ∅))) = ["1,2,a.c" +:+ nl].
Proof.
  split; [vm_compute; set_solver|].
  split; [split; [reflexivity | intros H; discriminate H]|].
  split; vm_compute; reflexivity.
Qed.

(** C5 (as amended).  On a line whose token loop raises nothing (the
    last token is not [FILE] and no three-part [LINE] token is
    non-numeric) the loop completes, printing nothing but the
    bad-delimiter diagnostics of malformed tokens, so nothing at all when
    there is none; the file name is the token after the last [FILE], the
    two numbers are those of the last three-part [LINE] token, and the
    record written is made of these fields.  In particular the line
    [FILE a.c FILE b.c LINE:1:2] writes the record [1,2,b.c], from every
    state. *)
Theorem C5_last_token_wins :
  (forall out line wb w,
      last (py_split line) <> Some "FILE"%string ->
      Forall (fun t => ~ nonnumeric t) (py_split line) ->
      exists k l,
        scan_line line (py_split line) w =
          (printed (repeat (bad_delimiter line) k) w, Ok l) /\
        (forall pre name post,
            py_split line = pre ++ "FILE"%string :: name :: post ->
            "FILE"%string ∉ name :: post ->
            filename l = name) /\
        (forall pre tok post a b,
            py_split line = pre ++ tok :: post ->
            wellformed tok a b ->
            Forall (fun t => line_prefixed t -> ~ three_parts t) post ->
            startline l = a /\ num_lines l = b) /\
        (Forall (fun t => ~ malformed t) (py_split line) -> k = 0%nat) /\
        (py_split line <> [] ->
         filename l <> ""%string -> startline l <> -1 -> num_lines l <> -1 ->
         do_line out line wb w =
           (wrote out (fmt_record (startline l) (num_lines l) (filename l))
              (printed (repeat (bad_delimiter line) k) w),
            Ok true))) /\
  (forall out wb w,
      do_line out ("FILE a.c FILE b.c LINE:1:2" +:+ nl) wb w =
        (wrote out ("1,2,b.c" +:+ nl) w, Ok true)).
Proof.
  split.
  - intros out line wb w Hlast Hnn.
    destruct (scan_pure_completes (py_split line) "" (-1) (-1) Hlast Hnn)
      as [[[f s] n] Hr].
    pose proof (scan_pure_no_malformed (py_split line) "" (-1) (-1)) as Hk.
    pose proof (do_line_data out line wb w) as Hd.
    rewrite scan_line_spec. unfold line_outcome in Hd.
    destruct (scan_pure (py_split line) "" (-1) (-1)) as [k r] eqn:Hs.
    simpl in *. subst r.
    exists k, (Locals (length (py_split line)) f s n). simpl.
    split; [done|]. split; [|split; [|split; [done|]]].
    + intros pre name post Hsplit Hnf. rewrite Hsplit in Hs.
      eapply (scan_pure_last_FILE pre name post); [done|]. by rewrite Hs.
    + intros pre tok post a b Hsplit Hwf Hpost. rewrite Hsplit in Hs.
      eapply (scan_pure_last_LINE pre tok post); [done|done|]. by rewrite Hs.
    + intros Hne Hf Hst Hn. rewrite Hd by done.
      unfold fields_ok, field_diags.
      rewrite !bool_decide_true by done.
      rewrite !decide_False by done. simpl. by rewrite printed_nil.
  - intros out wb w. rewrite do_line_data by discriminate.
    replace (scan_pure (py_split ("FILE a.c FILE b.c LINE:1:2" +:+ nl)) "" (-1) (-1))
      with (0%nat, Ok ("b.c"%string, 1, 2) : result (string * Z * Z))
      by (vm_compute; reflexivity).
    unfold line_outcome. simpl. by rewrite !printed_nil.
Qed.

Lemma C5_last_token_wins_witness :
  do_line "out" ("FILE a.c FILE b.c LINE:1:2" +:+ nl) false (world_of ∅) =
  (wrote "out" ("1,2,b.c" +:+ nl) (world_of ∅), Ok true).
Proof.
  destruct (proj1 C5_last_token_wins "out" ("FILE a.c FILE b.c LINE:1:2" +:+ nl)
              false (world_of ∅)) as (k & l & _ & Hf & Hn & Hk & Hd).
  - discriminate.
  - change (py_split ("FILE a.c FILE b.c LINE:1:2" +:+ nl))
      with ["FILE"%string; "a.c"%string; "FILE"%string; "b.c"%string;
            "LINE:1:2"%string].
    no_nonnumeric.
  - specialize (Hf ["FILE"%string; "a.c"%string] "b.c"%string ["LINE:1:2"%string]
                  eq_refl).
    specialize (Hn ["FILE"%string; "a.c"%string; "FILE"%string; "b.c"%string]
                  "LINE:1:2"%string [] 1 2 eq_refl).
    rewrite Hd.
    + rewrite Hf, Hk.
      * destruct Hn as [-> ->]; [by repeat split | constructor | reflexivity].
      * change (py_split ("FILE a.c FILE b.c LINE:1:2" +:+ nl))
          with ["FILE"%string; "a.c"%string; "FILE"%string; "b.c"%string;
                "LINE:1:2"%string].
        repeat constructor; intros [Hl H3]; try discriminate Hl; by apply H3.
      * not_in_literals.
    + discriminate.
    + rewrite Hf; [discriminate | not_in_literals].
    + destruct Hn as [-> _]; [by repeat split | constructor | discriminate].
    + destruct Hn as [_ ->]; [by repeat split | constructor | discriminate].
Defined.

(** C5 as stated fails: of several [FILE] tokens the last may be the
    last token of the line; it then overwrites nothing, its look-ahead
    raises [IndexError], and the line has no output fields. *)
Lemma C5_counterexample :
  let line := "FILE a.c FILE" +:+ nl in
  py_split line = ["FILE"; "a.c"; "FILE"]%string /\
  do_line "out" line false (world_of ∅) = (world_of ∅, Raise IndexError) /\
  (forall l, snd (scan_line line (py_split line) (world_of ∅)) <> Ok l) /\
  written (fst (do_line "out" line false (world_of ∅))) = [].
Proof.
  split; [vm_compute; reflexivity|].
  split; [vm_compute; reflexivity|].
  split; [|vm_compute; reflexivity].
  intros l H. vm_compute in H. discriminate H.
Qed.

Lemma do_line_nonnumeric out line wb w :
  Exists nonnumeric (py_split line) ->
  exists k,
    do_line out line wb w =
    (printed (repeat (bad_delimiter line) k) w, Raise ValueError).
Proof.
  intros Hex.
  assert (Hnb : ~ blank line).
  { unfold blank. intros Hb. rewrite Hb in Hex. by inversion Hex. }
  rewrite do_line_data by done. unfold line_outcome.
  pose proof (scan_pure_nonnumeric (py_split line) "" (-1) (-1) Hex) as Hr.
  destruct (scan_pure (py_split line) "" (-1) (-1)) as [k r]. simpl in *.
  subst r. by exists k.
Qed.

(** C6.  A line holding a three-part [LINE] token on which [int()]
    fails, reached after the earlier lines were processed: the line
    raises [ValueError]; neither the loop over the lines, nor
    [convert_file], nor [main] handles it, so the run ends there, with
    the lines after it unread and the files not closed. *)
Theorem C6_numeric_parse_error input output w before line after w1 wb1 :
  is_Some (files w !! input) -> output ∉ unwritable w ->
  input_lines input output w = before ++ line :: after ->
  for_each (do_line output) before false (opening input output w) = (w1, Ok wb1) ->
  Exists nonnumeric (py_split line) ->
  exists k,
    do_line output line wb1 w1 =
      (printed (repeat (bad_delimiter line) k) w1, Raise ValueError) /\
    convert_file input output w =
      (printed (repeat (bad_delimiter line) k) w1, Raise ValueError) /\
    forall prog,
      main [prog; input; output] w =
        (printed (repeat (bad_delimiter line) k) w1, Raise ValueError).
Proof.
  intros [c Hin] Hout Hlines Hb Hex.
  destruct (do_line_nonnumeric output line wb1 w1 Hex) as [k Hk].
  exists k. split; [done|].
  assert (Hc : convert_file input output w =
               (printed (repeat (bad_delimiter line) k) w1, Raise ValueError)).
  { rewrite convert_file_spec, Hin.
    destruct (decide (output ∈ unwritable w)); [done|].
    rewrite Hlines, for_each_app. unfold bind at 1. rewrite Hb.
    by rewrite (for_each_raise _ _ _ _ _ _ _ Hk). }
  split; [done|].
  intros prog. unfold main. simpl. unfold bind. by rewrite Hc.
Qed.

Lemma C6_numeric_parse_error_witness :
  exists w',
    main ["prog"; "in"; "out"] (world_of {[ "in"%string := nonnumeric_input ]}) =
      (w', Raise ValueError) /\
    written w' = ["1,2,a.c" +:+ nl] /\ opened w' = ["out"; "in"]%string.
Proof.
  destruct (C6_numeric_parse_error "in" "out"
              (world_of {[ "in"%string := nonnumeric_input ]})
              ["FILE a.c LINE:1:2" +:+ nl] ("FILE b.c LINE:x:3" +:+ nl)
              ["FILE c.c LINE:4:5" +:+ nl]
              (wrote "out" ("1,2,a.c" +:+ nl)
                 (opening "in" "out" (world_of {[ "in"%string := nonnumeric_input ]})))
              true) as (k & _ & _ & Hm).
  - by eexists.
  - apply not_elem_of_empty.
  - vm_compute. reflexivity.
  - vm_compute. reflexivity.
  - apply Exists_exists. exists "LINE:x:3"%string. split.
    + change (py_split ("FILE b.c LINE:x:3" +:+ nl))
        with ["FILE"%string; "b.c"%string; "LINE:x:3"%string].
      rewrite !elem_of_cons. auto.
    + repeat split. by left.
  - eexists. split; [apply Hm|]. split; reflexivity.
Defined.

(** C7 (as amended).  A line whose last token is [FILE] raises: the
    [IndexError] of the look-ahead when no three-part [LINE] token of the
    line is non-numeric, and the [ValueError] of such a token, met
    earlier, otherwise.  Nothing is written. *)
Theorem C7_final_FILE out line wb w :
  last (py_split line) = Some "FILE"%string ->
  exists k,
    (Forall (fun t => ~ nonnumeric t) (py_split line) ->
     do_line out line wb w =
       (printed (repeat (bad_delimiter line) k) w, Raise IndexError)) /\
    (Exists nonnumeric (py_split line) ->
     do_line out line wb w =
       (printed (repeat (bad_delimiter line) k) w, Raise ValueError)).
Proof.
  intros Hlast.
  assert (Hnb : ~ blank line).
  { unfold blank. intros Hb. by rewrite Hb in Hlast. }
  rewrite do_line_data by done. unfold line_outcome.
  pose proof (scan_pure_last_file (py_split line) "" (-1) (-1) Hlast) as H1.
  pose proof (scan_pure_nonnumeric (py_split line) "" (-1) (-1)) as H2.
  destruct (scan_pure (py_split line) "" (-1) (-1)) as [k r]. simpl in *.
  exists k. split; intros H.
  - by rewrite (H1 H).
  - by rewrite (H2 H).
Qed.

Lemma C7_final_FILE_witness :
  exists k,
    do_line "out" ("LINE:1:2 FILE" +:+ nl) false (world_of ∅) =
    (printed (repeat (bad_delimiter ("LINE:1:2 FILE" +:+ nl)) k) (world_of ∅),
     Raise IndexError).
Proof.
  destruct (C7_final_FILE "out" ("LINE:1:2 FILE" +:+ nl) false (world_of ∅))
    as (k & H1 & _); [reflexivity|].
  exists k. apply H1.
  change (py_split ("LINE:1:2 FILE" +:+ nl)) with ["LINE:1:2"%string; "FILE"%string].
  no_nonnumeric.
Defined.

(** C7 as stated fails: an earlier non-numeric [LINE] token raises
    [ValueError] before the final [FILE] is read. *)
Lemma C7_counterexample :
  let line := "LINE:x:y FILE" +:+ nl in
  last (py_split line) = Some "FILE"%string /\
  snd (do_line "out" line false (world_of ∅)) = Raise ValueError /\
  snd (do_line "out" line false (world_of ∅)) <> Raise IndexError.
Proof. repeat split; discriminate. Qed.

(** C8 (as amended).  When [convert_file] returns, both file objects are
    closed: the open file objects are those of before the call.  When
    both files were opened and an error ends the loop over the lines,
    both file objects are still open: no statement closes them on that
    path. *)
Theorem C8_streams_closed_on_return input output w w' r :
  convert_file input output w = (w', r) ->
  (r = Ok tt -> opened w' = opened w) /\
  (is_Some (files w !! input) -> output ∉ unwritable w -> r <> Ok tt ->
   opened w' = output :: input :: opened w).
Proof.
  rewrite convert_file_spec. intros Hc.
  destruct (files w !! input) as [c|] eqn:Hin.
  2:{ injection Hc as <- <-. split; [done|]. by intros [? ?]. }
  destruct (decide (output ∈ unwritable w)) as [Hout|Hout].
  { injection Hc as <- <-. split; [done | done]. }
  pose proof (loop_opened output (input_lines input output w) false
                (opening input output w)) as Ho.
  destruct (for_each (do_line output) (input_lines input output w) false
              (opening input output w)) as [w2 [wb|e]];
    injection Hc as <- <-; simpl in *.
  - split; [|done]. intros _. rewrite Ho. apply remove_both.
  - split; [done|]. by intros _ _ _.
Qed.

Lemma C8_streams_closed_on_return_witness :
  opened (fst (convert_file "in" "out" (world_of {[ "in"%string := spec_input ]}))) = [].
Proof.
  destruct (C8_streams_closed_on_return "in" "out"
              (world_of {[ "in"%string := spec_input ]}) _ _
              (surjective_pairing _)) as [H _].
  apply H. vm_compute. reflexivity.
Defined.

(** C8 as stated fails: a numeric parse error in the middle of the file
    leaves both file objects open. *)
Lemma C8_counterexample :
  let w := world_of {[ "in"%string := nonnumeric_input ]} in
  opened w = [] /\
  snd (convert_file "in" "out" w) = Raise ValueError /\
  opened (fst (convert_file "in" "out" w)) = ["out"; "in"]%string /\
  opened (fst (convert_file "in" "out" w)) <> opened w.
Proof. repeat split; try (vm_compute; reflexivity). discriminate. Qed.

(** C9.  With an argument vector of a length other than three (the
    program name and two arguments) [main] prints the two usage lines
    and returns 1; nothing else in the world changes: no file is opened,
    created or written. *)
Theorem C9_usage argv w :
  length argv <> 3%nat ->
  main argv w =
  (printed ["NEED 2 ARGUMENTS" +:+ nl;
            "ARGUMENT FORMAT: input_file output_file" +:+ nl] w,
   Ok 1).
Proof.
  intros Hlen. unfold main. rewrite decide_True by done.
  unfold bind, print, ret, printed. simpl. by rewrite <- app_assoc.
Qed.

Lemma C9_usage_witness :
  main ["prog"; "only_one"] (world_of ∅) =
  (printed ["NEED 2 ARGUMENTS" +:+ nl;
            "ARGUMENT FORMAT: input_file output_file" +:+ nl] (world_of ∅),
   Ok 1).
Proof. apply C9_usage. simpl. lia. Defined.

(** C10 (as amended).  A line with a [FILE] pair and a three-part [LINE]
    token whose start or count parses to -1, when this token is the last
    three-part [LINE] token of the line and the token loop raises nothing:
    no record is written and the flag is kept; the diagnostic of the
    missing start line (of the missing number of lines) is printed, and
    the one of the missing file name is not. *)
Theorem C10_minus_one_is_the_sentinel out line wb w fpre name fpost pre tok post a b :
  py_split line = fpre ++ "FILE"%string :: name :: fpost ->
  py_split line = pre ++ tok :: post ->
  wellformed tok a b ->
  Forall (fun t => line_prefixed t -> ~ three_parts t) post ->
  last (py_split line) <> Some "FILE"%string ->
  Forall (fun t => ~ nonnumeric t) (py_split line) ->
  a = -1 \/ b = -1 ->
  exists msgs,
    do_line out line wb w = (printed msgs w, Ok wb) /\
    (a = -1 -> no_startline line ∈ msgs) /\
    (b = -1 -> no_num_lines line ∈ msgs) /\
    no_filename line ∉ msgs.
Proof.
  intros Hfile Hsplit Hwf Hpost Hlast Hnn Hm1.
  destruct (scan_pure_completes (py_split line) "" (-1) (-1) Hlast Hnn)
    as [[[f s] n] Hr].
  assert (Hnum : s = a /\ n = b).
  { rewrite Hsplit in Hr. by eapply scan_pure_last_LINE. }
  destruct Hnum as [-> ->].
  assert (Hf : f <> ""%string).
  { apply (py_split_nonempty line).
    eapply scan_pure_filename_found; [|exact Hr].
    rewrite Hfile. apply elem_of_app. right. apply list_elem_of_here. }
  rewrite do_line_data by (unfold blank; rewrite Hsplit; by destruct pre).
  unfold line_outcome.
  destruct (scan_pure (py_split line) "" (-1) (-1)) as [k r]. simpl in *. subst r.
  exists (repeat (bad_delimiter line) k ++ field_diags line f a b).
  assert (Hok : fields_ok f a b = false).
  { unfold fields_ok. destruct Hm1 as [-> | ->].
    - rewrite (bool_decide_false (-1 ≠ -1)) by (intros H; by apply H).
      by rewrite andb_false_r.
    - rewrite (bool_decide_false (-1 ≠ -1)) by (intros H; by apply H).
      by rewrite andb_false_r. }
  rewrite Hok, printed_app. split; [done|].
  unfold field_diags. rewrite (decide_False (P := f = ""%string)) by done.
  split; [|split].
  - intros ->. apply elem_of_app. right. simpl. apply list_elem_of_here.
  - intros ->. apply elem_of_app. right. simpl.
    destruct (decide (a = -1)); simpl; rewrite ?elem_of_cons; auto.
  - intros [Hin | Hin]%elem_of_app; [by apply no_filename_not_bad in Hin|].
    simpl in Hin.
    destruct (decide (a = -1)), (decide (b = -1)); simpl in Hin;
      rewrite ?elem_of_cons in Hin; rewrite ?elem_of_nil in Hin;
      intuition discriminate.
Qed.

Lemma C10_minus_one_is_the_sentinel_witness :
  exists msgs,
    do_line "out" sentinel_line true (world_of ∅) = (printed msgs (world_of ∅), Ok true) /\
    (-1 = -1 -> no_startline sentinel_line ∈ msgs) /\
    (5 = -1 -> no_num_lines sentinel_line ∈ msgs) /\
    no_filename sentinel_line ∉ msgs.
Proof.
  apply (C10_minus_one_is_the_sentinel "out" sentinel_line true (world_of ∅)
           [] "a.c" ["LINE:-1:5"%string]
           ["FILE"%string; "a.c"%string] "LINE:-1:5" [] (-1) 5).
  - reflexivity.
  - reflexivity.
  - by repeat split.
  - constructor.
  - discriminate.
  - change (py_split sentinel_line)
      with ["FILE"%string; "a.c"%string; "LINE:-1:5"%string].
    no_nonnumeric.
  - by left.
Defined.

(** C10 as stated fails: a later three-part [LINE] token replaces the -1,
    and the record is written without any diagnostic. *)
Lemma C10_counterexample :
  let line := "FILE a.c LINE:-1:5 LINE:1:2" +:+ nl in
  let w' := fst (do_line "out" line false (world_of ∅)) in
  py_split line = ["FILE"; "a.c"; "LINE:-1:5"; "LINE:1:2"]%string /\
  wellformed "LINE:-1:5" (-1) 5 /\
  written w' = ["1,2,a.c" +:+ nl] /\
  stdout w' = [] /\
  no_startline line ∉ stdout w'.
Proof. repeat split. apply not_elem_of_nil. Qed.

(** * Further properties of the script *)

(** ** Splitting and joining *)

Lemma snoc_not_empty cur c : cur +:+ String c "" <> ""%string.
Proof. by destruct cur. Qed.

Lemma split_ws_nil s :
  forall cur, split_ws cur s = [] <-> cur = ""%string /\ all_space s = true.
Proof.
  induction s as [|c s IH]; intros cur; simpl.
  - destruct (decide (cur = ""%string)) as [->|Hne].
    + split; [by intros _ | done].
    + split; [discriminate | by intros [? _]].
  - destruct (is_space c); simpl.
    + destruct (decide (cur = ""%string)) as [->|Hne].
      * rewrite IH. split; intros [_ H]; by split.
      * split; [discriminate | by intros [? _]].
    + rewrite IH. split.
      * intros [H _]. by apply snoc_not_empty in H.
      * intros [_ H]. discriminate H.
Qed.

Lemma split_ws_spaces s cur :
  all_space s = true ->
  split_ws cur s = if decide (cur = ""%string) then [] else [cur].
Proof.
  revert cur. induction s as [|c s IH]; intros cur Hs; simpl in *; [done|].
  apply andb_true_iff in Hs as [-> Hs].
  destruct (decide (cur = ""%string)); rewrite (IH _ Hs); done.
Qed.

Lemma split_ws_token t :
  forall cur rest,
    no_space t = true -> split_ws cur (t +:+ rest) = split_ws (cur +:+ t) rest.
Proof.
  induction t as [|c t IH]; intros cur rest Ht.
  - by rewrite append_nil_r.
  - simpl in Ht. apply andb_true_iff in Ht as [Hc Ht].
    apply negb_true_iff in Hc.
    change (String c t +:+ rest) with (String c (t +:+ rest)).
    cbn [split_ws]. rewrite Hc, (IH _ _ Ht). f_equal.
    by rewrite append_assoc.
Qed.

Lemma split_ws_join toks :
  Forall (fun t => t <> ""%string /\ no_space t = true) toks ->
  forall tail,
    all_space tail = true ->
    split_ws "" (str_join " " toks +:+ tail) = toks.
Proof.
  induction 1 as [|t toks [Hne Ht] Htoks IH]; intros tail Htail.
  - simpl. by rewrite split_ws_spaces.
  - destruct toks as [|t2 toks].
    + simpl. rewrite (split_ws_token t "" tail Ht).
      rewrite split_ws_spaces by done. by rewrite decide_False.
    + change (str_join " " (t :: t2 :: toks))
        with (t +:+ " " +:+ str_join " " (t2 :: toks)).
      rewrite !append_assoc.
      rewrite (split_ws_token t "" _ Ht).
      change (" " +:+ str_join " " (t2 :: toks) +:+ tail)
        with (String " " (str_join " " (t2 :: toks) +:+ tail)).
      cbn [split_ws]. change (is_space " ") with true. cbv iota.
      change ("" +:+ t) with t. rewrite decide_False by done.
      f_equal. by apply IH.
Qed.

Lemma split_on_nonempty sep s : forall cur, split_on sep cur s <> [].
Proof.
  induction s as [|c s IH]; intros cur; simpl; [done|].
  destruct (decide (c = sep)); [done | apply IH].
Qed.

Lemma str_join_cons sep x l :
  l <> [] -> str_join sep (x :: l) = x +:+ sep +:+ str_join sep l.
Proof. by destruct l. Qed.

Lemma split_on_length sep s :
  forall cur, length (split_on sep cur s) = S (count_char sep s).
Proof.
  induction s as [|c s IH]; intros cur; simpl; [done|].
  destruct (decide (c = sep)); simpl; by rewrite IH.
Qed.

Lemma split_on_join sep s :
  forall cur, str_join (String sep "") (split_on sep cur s) = cur +:+ s.
Proof.
  induction s as [|c s IH]; intros cur; simpl.
  - by rewrite append_nil_r.
  - destruct (decide (c = sep)) as [->|Hne].
    + rewrite str_join_cons by apply split_on_nonempty. by rewrite IH.
    + rewrite IH. by rewrite append_assoc.
Qed.

Lemma split_on_part sep x :
  forall cur rest,
    count_char sep x = 0%nat ->
    split_on sep cur (x +:+ rest) = split_on sep (cur +:+ x) rest.
Proof.
  induction x as [|c x IH]; intros cur rest Hx.
  - by rewrite append_nil_r.
  - simpl in Hx. destruct (decide (c = sep)) as [|Hne]; [done|].
    change (String c x +:+ rest) with (String c (x +:+ rest)).
    cbn [split_on]. rewrite decide_False by done.
    rewrite IH by done. f_equal. by rewrite append_assoc.
Qed.

Lemma split_on_parts sep parts :
  Forall (fun x => count_char sep x = 0%nat) parts -> parts <> [] ->
  split_on sep "" (str_join (String sep "") parts) = parts.
Proof.
  induction 1 as [|x parts Hx Hparts IH]; intros Hne; [done|].
  destruct parts as [|y parts].
  - simpl. rewrite <- (append_nil_r x) at 1.
    by rewrite (split_on_part sep x "" "" Hx).
  - change (str_join (String sep "") (x :: y :: parts))
      with (x +:+ String sep (str_join (String sep "") (y :: parts))).
    rewrite (split_on_part sep x "" _ Hx).
    cbn [split_on]. rewrite decide_True by done.
    change ("" +:+ x) with x. f_equal. by apply IH.
Qed.

(** X1.  A line is blank, that is without tokens, exactly when all its
    characters are whitespace: lines of spaces or tabs count as blank
    lines, as the empty line and the lone newline do. *)
Theorem X1_blank_iff_whitespace line : blank line <-> all_space line = true.
Proof.
  unfold blank, py_split. rewrite split_ws_nil. split; [by intros [_ ?] | done].
Qed.

(** X2.  Every token of a line is non-empty and holds no whitespace. *)
Theorem X2_tokens_shape line :
  Forall (fun t => t <> ""%string /\ no_space t = true) (py_split line).
Proof.
  apply Forall_forall. intros t Ht. split.
  - by apply (py_split_nonempty line).
  - pose proof (split_ws_no_space line "" eq_refl) as H.
    rewrite Forall_forall in H. by apply H.
Qed.

(** X3.  Splitting undoes joining: the tokens of the line made of
    non-empty whitespace-free words, one space between them and a newline
    at the end, are these words.  So every such list of words is the list
    of tokens of a line. *)
Theorem X3_split_of_join toks :
  Forall (fun t => t <> ""%string /\ no_space t = true) toks ->
  py_split (str_join " " toks +:+ nl) = toks.
Proof. intros H. by apply split_ws_join. Qed.

Lemma X3_split_of_join_witness :
  py_split (str_join " " ["FILE"; "a.c"; "LINE:1:2"]%string +:+ nl)
  = ["FILE"; "a.c"; "LINE:1:2"]%string.
Proof.
  apply X3_split_of_join. repeat constructor; discriminate.
Defined.

(** X4.  The parts of a token split at the colons, joined with colons,
    give the token back, and there is one part more than there are
    colons: a [LINE] token is taken as start and count exactly when it
    holds two colons. *)
Theorem X4_colon_parts tok :
  str_join ":" (str_split ":" tok) = tok /\
  length (str_split ":" tok) = S (count_char ":" tok) /\
  (three_parts tok <-> count_char ":" tok = 2%nat).
Proof.
  unfold three_parts, str_split. rewrite split_on_length. split; [|split; [done|]].
  - apply (split_on_join ":" tok "").
  - split; intros H; lia.
Qed.

Lemma line_prefixed_LINE rest : line_prefixed ("LINE" +:+ rest).
Proof.
  unfold line_prefixed.
  change ("LINE" +:+ rest) with (String "L" (String "I" (String "N" (String "E" rest)))).
  cbn [substring]. by destruct rest.
Qed.

(** X5.  Of the first part of a [LINE] token only the first four
    characters are looked at: whatever colon-free text follows [LINE],
    the token is taken as start and count when its two other parts are
    integers. *)
Theorem X5_line_prefix_only p a b s n :
  count_char ":" p = 0%nat -> count_char ":" a = 0%nat -> count_char ":" b = 0%nat ->
  py_int a = Some s -> py_int b = Some n ->
  wellformed ("LINE" +:+ p +:+ ":" +:+ a +:+ ":" +:+ b) s n.
Proof.
  intros Hp Ha Hb Hs Hn.
  assert (Hsplit : str_split ":" ("LINE" +:+ p +:+ ":" +:+ a +:+ ":" +:+ b)
                   = ["LINE" +:+ p; a; b]).
  { change ("LINE" +:+ p +:+ ":" +:+ a +:+ ":" +:+ b)
      with (str_join ":" ["LINE" +:+ p; a; b]).
    apply split_on_parts; [|done].
    repeat constructor; [exact Hp | exact Ha | exact Hb]. }
  unfold wellformed, three_parts. rewrite Hsplit.
  split; [apply line_prefixed_LINE|].
  split; [reflexivity|]. split; [exact Hs | exact Hn].
Qed.

Lemma X5_line_prefix_only_witness : wellformed "LINENO:12:-3" 12 (-3).
Proof. by apply (X5_line_prefix_only "NO" "12" "-3" 12 (-3)). Defined.

(** ** Numbers *)

Lemma digits_of_uint_acc d :
  forall acc,
    digits true (Z.pos acc) (NilEmpty.string_of_uint d)
    = Some (Z.pos (Pos.of_uint_acc d acc)).
Proof.
  induction d; intros acc; simpl; try done;
    rewrite <- IHd; f_equal; lia.
Qed.

Lemma digits_of_uint d :
  digits true 0 (NilEmpty.string_of_uint d) = Some (Z.of_N (Pos.of_uint d)).
Proof.
  induction d; simpl; try done;
    apply (digits_of_uint_acc d).
Qed.

Lemma digits_of_to_uint p :
  digits false 0 (NilEmpty.string_of_uint (Pos.to_uint p)) = Some (Z.pos p).
Proof.
  pose proof (digits_of_uint (Pos.to_uint p)) as H.
  rewrite DecimalPos.Unsigned.of_to in H.
  pose proof (DecimalPos.Unsigned.to_uint_nonnil p) as Hnn.
  destruct (Pos.to_uint p); done.
Qed.

Lemma py_int_of_to_uint p :
  py_int (NilEmpty.string_of_uint (Pos.to_uint p)) = Some (Z.pos p).
Proof.
  pose proof (digits_of_to_uint p) as H.
  pose proof (DecimalPos.Unsigned.to_uint_nonnil p) as Hnn.
  unfold py_int. destruct (Pos.to_uint p); done.
Qed.

(** X6.  The numbers are written as they were read: [int()] of the text
    ["%d"] gives for an integer is that integer. *)
Theorem X6_int_of_fmt z : py_int (fmt_d z) = Some z.
Proof.
  unfold fmt_d, NilZero.string_of_int, NilZero.string_of_uint.
  destruct z as [|p|p]; simpl.
  - reflexivity.
  - pose proof (DecimalPos.Unsigned.to_uint_nonnil p) as Hnn.
    pose proof (py_int_of_to_uint p) as H.
    destruct (Pos.to_uint p); done.
  - pose proof (DecimalPos.Unsigned.to_uint_nonnil p) as Hnn.
    pose proof (digits_of_to_uint p) as H.
    unfold py_int. destruct (Pos.to_uint p); try done;
      simpl in *; by rewrite H.
Qed.

(** ** What a line writes, whatever the world *)

Lemma valid_record_not_nl x : valid_record x -> x <> nl.
Proof. intros (s & n & f & -> & _). apply fmt_record_not_nl. Qed.

Lemma fields_ok_true f s n :
  fields_ok f s n = true -> f <> ""%string /\ s <> -1 /\ n <> -1.
Proof.
  unfold fields_ok. intros H.
  apply andb_true_iff in H as [H Hn]. apply andb_true_iff in H as [Hf Hs].
  apply bool_decide_eq_true in Hf, Hs, Hn. done.
Qed.

Lemma record_of_blank line : py_split line = [] -> record_of line = None.
Proof. intros Hb. unfold record_of. by rewrite do_line_blank. Qed.

(** The writes of a line: none, or the blank line of a blank input line,
    or the record of the line, which is a valid one. *)
Lemma do_line_writes out line wb w :
  exists ws,
    written (fst (do_line out line wb w)) = written w ++ ws /\
    ((ws = [] /\ (wb = false \/ py_split line <> []) /\
      (record_of line = None \/ exists e, snd (do_line out line wb w) = Raise e)) \/
     (ws = [nl] /\ py_split line = [] /\ record_of line = None) \/
     (exists rec,
         ws = [rec] /\ valid_record rec /\ py_split line <> [] /\
         record_of line = Some rec /\ snd (do_line out line wb w) = Ok true)).
Proof.
  destruct (py_split line) as [|t ts] eqn:Hs.
  - rewrite do_line_blank by done. destruct wb; simpl.
    + exists [nl]. split; [done|]. right; left. by rewrite record_of_blank.
    + exists []. rewrite app_nil_r. split; [done|]. left.
      split; [done|]. split; [by left|]. left. by rewrite record_of_blank.
  - assert (Hnb : ~ blank line) by (unfold blank; congruence).
    unfold record_of. rewrite !do_line_data by done. unfold line_outcome.
    pose proof (scan_pure_filename (py_split line) "" (-1) (-1)) as Hfn.
    destruct (scan_pure (py_split line) "" (-1) (-1)) as [k [[[f s] n]|e]]; simpl.
    2:{ exists []. rewrite app_nil_r. split; [done|]. left.
        split; [done|]. split; [by right | right; by exists e]. }
    destruct (fields_ok f s n) eqn:Hok; simpl.
    2:{ exists []. rewrite app_nil_r. split; [done|]. left.
        split; [done|]. split; [by right | by left]. }
    exists [fmt_record s n f]. split; [done|]. right; right.
    exists (fmt_record s n f). split; [done|].
    apply fields_ok_true in Hok as (Hf & Hs' & Hn).
    split; [|done].
    exists s, n, f. split; [done|]. split; [done|]. split; [done|]. split; [done|].
    destruct (Hfn f s n eq_refl) as [-> | Hin]; [done|].
    pose proof (split_ws_no_space line "" eq_refl) as H.
    rewrite Forall_forall in H. by apply H.
Qed.

Lemma filter_single {A} (P : A -> Prop) `{!forall x, Decision (P x)} (x : A) :
  filter P [x] = if decide (P x) then [x] else [].
Proof. rewrite filter_cons. by destruct (decide (P x)). Qed.

(** The same, as the run over the lines needs it. *)
Lemma do_line_summary out line wb w :
  exists ws,
    written (fst (do_line out line wb w)) = written w ++ ws /\
    Forall (fun x => x = nl \/ valid_record x) ws /\
    (length ws <= 1)%nat /\
    (length (filter (fun x => x = nl) ws)
     <= length (filter (fun l => py_split l = []) [line]))%nat /\
    (length (filter (fun x => x <> nl) ws)
     <= length (filter (fun l => py_split l <> []) [line]))%nat /\
    (forall wb', snd (do_line out line wb w) = Ok wb' ->
                 filter (fun x => x <> nl) ws = omap record_of [line]).
Proof.
  destruct (do_line_writes out line wb w) as (ws & Hw & Hcase).
  exists ws. split; [done|].
  destruct Hcase as [(-> & _ & Hrec)|[(-> & Hbl & Hrec)|(rec & -> & Hv & Hnb & Hrec & _)]].
  - split; [done|]. split; [simpl; lia|]. split; [simpl; lia|]. split; [simpl; lia|].
    intros wb' Hok. destruct Hrec as [Hrec | [e He]]; [|congruence].
    simpl. by rewrite Hrec.
  - split; [by constructor; [left|]|]. split; [simpl; lia|].
    rewrite !filter_single. simpl. rewrite Hrec.
    repeat case_decide; simpl; try done;
      try (split; [lia|]; split; [lia|]; done).
  - pose proof (valid_record_not_nl _ Hv) as Hne.
    split; [by constructor; [right|]|]. split; [simpl; lia|].
    rewrite !filter_single. simpl. rewrite Hrec.
    repeat case_decide; simpl; try done;
      try (split; [lia|]; split; [lia|]; done).
Qed.

(** The writes of a run: valid records and blank lines, at most one per
    line read, blank lines only for blank input lines; and, when the run
    completes, the records of the lines, in the order of the lines. *)
Lemma loop_writes out lines :
  forall wb w,
    exists ws,
      written (fst (for_each (do_line out) lines wb w)) = written w ++ ws /\
      Forall (fun x => x = nl \/ valid_record x) ws /\
      (length ws <= length lines)%nat /\
      (length (filter (fun x => x = nl) ws)
       <= length (filter (fun l => py_split l = []) lines))%nat /\
      (length (filter (fun x => x <> nl) ws)
       <= length (filter (fun l => py_split l <> []) lines))%nat /\
      (forall wb', snd (for_each (do_line out) lines wb w) = Ok wb' ->
                   filter (fun x => x <> nl) ws = omap record_of lines).
Proof.
  induction lines as [|l lines IH]; intros wb w.
  { exists []. simpl. rewrite app_nil_r. repeat split; auto. }
  change (l :: lines) with ([l] ++ lines).
  rewrite for_each_app. unfold bind.
  change (for_each (do_line out) [l] wb w)
    with (bind (do_line out l wb) (fun s' => ret s') w).
  unfold bind, ret.
  destruct (do_line_summary out l wb w) as (ws1 & Hw1 & Hv1 & Hl1 & Hb1 & Hr1 & Ho1).
  destruct (do_line out l wb w) as [w1 [wb1|e]] eqn:Hd; simpl in Hw1, Ho1.
  - destruct (IH wb1 w1) as (ws2 & Hw2 & Hv2 & Hl2 & Hb2 & Hr2 & Ho2).
    exists (ws1 ++ ws2). rewrite Hw2, Hw1, <- app_assoc. split; [done|].
    rewrite !filter_app, !length_app, omap_app.
    split; [by apply Forall_app|]. change (length [l]) with 1%nat.
    split; [lia|]. split; [lia|]. split; [lia|].
    intros wb' Hok. rewrite (Ho1 wb1 eq_refl). f_equal. by apply (Ho2 wb').
  - exists ws1. split; [done|].
    rewrite !filter_app, !length_app. change (length [l]) with 1%nat.
    split; [done|]. split; [lia|]. split; [lia|]. split; [lia|].
    intros wb' Hok. discriminate Hok.
Qed.

(** ** Runs from worlds with the same output *)

Lemma same_output_printed msgs w : same_output (printed msgs w) w.
Proof. by split. Qed.

Lemma same_output_wrote out s w1 w2 :
  same_output w1 w2 -> same_output (wrote out s w1) (wrote out s w2).
Proof. intros [Hf Hw]. split; simpl; by rewrite ?Hf, ?Hw. Qed.

Lemma same_output_trans w1 w2 w3 :
  same_output w1 w2 -> same_output w2 w3 -> same_output w1 w3.
Proof. intros [? ?] [? ?]. split; congruence. Qed.

Lemma same_output_sym w1 w2 : same_output w1 w2 -> same_output w2 w1.
Proof. intros [? ?]. by split. Qed.

Lemma do_line_same_output out line wb w1 w2 :
  same_output w1 w2 ->
  snd (do_line out line wb w1) = snd (do_line out line wb w2) /\
  same_output (fst (do_line out line wb w1)) (fst (do_line out line wb w2)).
Proof.
  intros Hso. destruct (py_split line) as [|t ts] eqn:Hs.
  - rewrite !do_line_blank by done. destruct wb; simpl; [|done].
    split; [done | by apply same_output_wrote].
  - rewrite !do_line_data by (unfold blank; congruence). unfold line_outcome.
    destruct (scan_pure (py_split line) "" (-1) (-1)) as [k [[[f s] n]|e]]; simpl.
    + assert (Hp : same_output
                     (printed (field_diags line f s n)
                        (printed (repeat (bad_delimiter line) k) w1))
                     (printed (field_diags line f s n)
                        (printed (repeat (bad_delimiter line) k) w2))).
      { destruct Hso. by split. }
      destruct (fields_ok f s n); simpl; split; try done.
      by apply same_output_wrote.
    + split; [done|]. destruct Hso. by split.
Qed.

Lemma loop_same_output out lines :
  forall wb w1 w2,
    same_output w1 w2 ->
    snd (for_each (do_line out) lines wb w1) = snd (for_each (do_line out) lines wb w2) /\
    same_output (fst (for_each (do_line out) lines wb w1))
                (fst (for_each (do_line out) lines wb w2)).
Proof.
  induction lines as [|l lines IH]; intros wb w1 w2 Hso; [done|].
  cbn [for_each]. unfold bind.
  destruct (do_line_same_output out l wb w1 w2 Hso) as [Hr Hs].
  destruct (do_line out l wb w1) as [w1' [wb1|e1]],
           (do_line out l wb w2) as [w2' [wb2|e2]]; simpl in *; try done.
  injection Hr as ->. by apply IH.
Qed.

(** A skipped line only prints, and keeps the flag. *)
Lemma skipped_spec line :
  skipped line ->
  forall out wb w, exists msgs, do_line out line wb w = (printed msgs w, Ok wb).
Proof.
  unfold skipped, record_of. intros (Hne & Hr & _) out wb w.
  rewrite do_line_data in Hr by done. rewrite do_line_data by done.
  unfold line_outcome in *.
  destruct (scan_pure (py_split line) "" (-1) (-1)) as [k [[[f s] n]|e]];
    simpl in *; [|done].
  destruct (fields_ok f s n); simpl in *; [done|].
  rewrite printed_app. eauto.
Qed.

(** ** Files other than the output file *)

Lemma loop_other_files out lines wb w p :
  p <> out ->
  files (fst (for_each (do_line out) lines wb w)) !! p = files w !! p.
Proof.
  intros Hp.
  apply (for_each_invariant (fun w' => files w' !! p = files w !! p)); [|done].
  intros l s w1 <-.
  destruct (do_line_world out l s w1)
    as [msgs [H|[[e H]|[[Hwb H]|(s' & n & f & H)]]]]; rewrite H; simpl; try done;
    by rewrite lookup_insert_ne.
Qed.

(** X7.  With an argument vector of a length other than three the script
    prints the usage lines and runs to its end: the 1 that [main] returns
    is dropped, and the exit status is 0, that of a successful run. *)
Theorem X7_usage_exit_status argv w :
  length argv <> 3%nat ->
  snd (main argv w) = Ok 1 /\
  script argv w =
    (printed ["NEED 2 ARGUMENTS" +:+ nl;
              "ARGUMENT FORMAT: input_file output_file" +:+ nl] w,
     Ok tt) /\
  exit_status (snd (script argv w)) = 0.
Proof.
  intros Hlen. unfold script, bind, main. rewrite decide_True by done.
  unfold bind, print, ret, printed. simpl. by rewrite <- !app_assoc.
Qed.

Lemma X7_usage_exit_status_witness :
  exit_status (snd (script ["prog"%string] (world_of ∅))) = 0.
Proof.
  destruct (X7_usage_exit_status ["prog"%string] (world_of ∅)) as (_ & _ & H).
  - simpl. lia.
  - exact H.
Defined.

(** X8.  When the input file does not exist the run ends with [IOError]
    before the output file is opened: no file is created or emptied, and
    nothing is printed or written. *)
Theorem X8_missing_input input output w prog :
  files w !! input = None ->
  convert_file input output w = (w, Raise IOError) /\
  main [prog; input; output] w = (w, Raise IOError) /\
  exit_status (snd (script [prog; input; output] w)) = 1.
Proof.
  intros Hin.
  assert (Hc : convert_file input output w = (w, Raise IOError)).
  { by rewrite convert_file_spec, Hin. }
  split; [done|].
  unfold script, main. simpl. unfold bind. by rewrite Hc.
Qed.

Lemma X8_missing_input_witness :
  convert_file "in" "out" (world_of {[ "out"%string := "kept"%string ]})
  = (world_of {[ "out"%string := "kept"%string ]}, Raise IOError).
Proof.
  apply (X8_missing_input "in" "out" (world_of {[ "out"%string := "kept"%string ]})
           "prog").
  reflexivity.
Defined.

(** X9.  When the input and the output are the same file, the file is
    emptied before it is read: the run reads no line, writes nothing,
    returns normally, and leaves the file empty. *)
Theorem X9_same_file path w :
  is_Some (files w !! path) -> path ∉ unwritable w ->
  convert_file path path w =
    (World (<[path := ""%string]> (files w)) (unwritable w) (opened w)
           (stdout w) (written w),
     Ok tt).
Proof.
  intros [c Hin] Hout. rewrite convert_file_spec, Hin.
  rewrite decide_False by done.
  unfold input_lines. rewrite lookup_insert_eq.
  change (file_lines (default ""%string (Some ""%string))) with (@nil string).
  cbn [for_each]. unfold ret, closing, opening.
  cbn [files unwritable opened stdout written]. by rewrite remove_both.
Qed.

Lemma X9_same_file_witness :
  files (fst (convert_file "f" "f" (world_of {[ "f"%string := spec_input ]})))
    !! "f"%string = Some ""%string.
Proof.
  rewrite X9_same_file.
  - reflexivity.
  - by eexists.
  - apply not_elem_of_empty.
Defined.

(** X10.  An input without tokens (empty, or made of blank lines only)
    gives an empty output file: the file is created or emptied, nothing
    is written or printed, and the run returns normally. *)
Theorem X10_blank_input input output w :
  is_Some (files w !! input) -> output ∉ unwritable w ->
  Forall blank (input_lines input output w) ->
  convert_file input output w =
    (World (<[output := ""%string]> (files w)) (unwritable w) (opened w)
           (stdout w) (written w),
     Ok tt).
Proof.
  intros [c Hin] Hout Hbl. rewrite convert_file_spec, Hin.
  rewrite decide_False by done.
  rewrite blanks_from_false by done.
  unfold closing, opening.
  cbn [files unwritable opened stdout written]. by rewrite remove_both.
Qed.

Lemma X10_blank_input_witness :
  files (fst (convert_file "in" "out"
                (world_of {[ "in"%string := nl +:+ "  " +:+ nl +:+ nl ]})))
    !! "out"%string = Some ""%string.
Proof.
  rewrite X10_blank_input.
  - reflexivity.
  - by eexists.
  - apply not_elem_of_empty.
  - repeat constructor.
Defined.

(** X11.  A run changes no file but the output file: every other path,
    the input file among them when it is another file, holds after the
    run what it held before, whatever the outcome. *)
Theorem X11_other_files_untouched input output w p :
  p <> output ->
  files (fst (convert_file input output w)) !! p = files w !! p.
Proof.
  intros Hp. rewrite convert_file_spec.
  destruct (files w !! input) as [c|]; [|done].
  destruct (decide (output ∈ unwritable w)); [done|].
  pose proof (loop_other_files output (input_lines input output w) false
                (opening input output w) p Hp) as H.
  destruct (for_each (do_line output) (input_lines input output w) false
              (opening input output w)) as [w' [?|?]]; simpl in *;
    rewrite H; by rewrite lookup_insert_ne.
Qed.

Lemma X11_other_files_untouched_witness :
  files (fst (convert_file "in" "out" (world_of {[ "in"%string := spec_input ]})))
    !! "in"%string = Some spec_input.
Proof.
  rewrite X11_other_files_untouched; [reflexivity | discriminate].
Defined.

(** ** The writes of a run of the converter *)

Lemma convert_file_writes input output w :
  exists ws,
    written (fst (convert_file input output w)) = written w ++ ws /\
    Forall (fun x => x = nl \/ valid_record x) ws /\
    (length ws <= length (input_lines input output w))%nat /\
    (length (filter (fun x => x = nl) ws)
     <= length (filter (fun l => py_split l = []) (input_lines input output w)))%nat /\
    (length (filter (fun x => x <> nl) ws)
     <= length (filter (fun l => py_split l <> []) (input_lines input output w)))%nat /\
    (snd (convert_file input output w) = Ok tt ->
     filter (fun x => x <> nl) ws = omap record_of (input_lines input output w)).
Proof.
  rewrite convert_file_spec.
  destruct (files w !! input) as [c|].
  2:{ exists []. simpl. rewrite app_nil_r. repeat split; try done; lia. }
  destruct (decide (output ∈ unwritable w)).
  { exists []. simpl. rewrite app_nil_r. repeat split; try done; lia. }
  destruct (loop_writes output (input_lines input output w) false
              (opening input output w)) as (ws & Hw & Hv & Hl & Hb & Hr & Ho).
  exists ws.
  destruct (for_each (do_line output) (input_lines input output w) false
              (opening input output w)) as [w' [wb'|e]]; simpl in *.
  - repeat split; try done. intros _. by apply (Ho wb').
  - repeat split; done.
Qed.

(** X12.  Whatever the input and the outcome, every line a run writes is
    a blank line or a record whose start and count are not -1 and whose
    file name is not empty and holds no whitespace. *)
Theorem X12_only_valid_records input output w :
  exists ws,
    written (fst (convert_file input output w)) = written w ++ ws /\
    Forall (fun x =>
              x = nl \/
              exists s n f,
                x = fmt_record s n f /\ s <> -1 /\ n <> -1 /\
                f <> ""%string /\ no_space f = true) ws.
Proof.
  destruct (convert_file_writes input output w) as (ws & Hw & Hv & _).
  by exists ws.
Qed.

(** X13.  A line with tokens is never dropped in silence: it writes its
    record, or it raises, or it prints at least one of the three
    missing-field diagnostics and leaves the flag as it was. *)
Theorem X13_no_silent_drop out line wb w :
  py_split line <> [] ->
  (exists rec,
      written (fst (do_line out line wb w)) = written w ++ [rec] /\
      snd (do_line out line wb w) = Ok true) \/
  (exists e, snd (do_line out line wb w) = Raise e) \/
  (exists msgs,
      do_line out line wb w = (printed msgs w, Ok wb) /\
      (no_filename line ∈ msgs \/ no_startline line ∈ msgs \/
       no_num_lines line ∈ msgs)).
Proof.
  intros Hne. rewrite !do_line_data by done. unfold line_outcome.
  destruct (scan_pure (py_split line) "" (-1) (-1)) as [k [[[f s] n]|e]]; simpl.
  2:{ right; left. by exists e. }
  destruct (fields_ok f s n) eqn:Hok; simpl.
  { left. by exists (fmt_record s n f). }
  right; right.
  exists (repeat (bad_delimiter line) k ++ field_diags line f s n).
  rewrite printed_app. split; [done|].
  unfold fields_ok in Hok. unfold field_diags.
  destruct (decide (f = ""%string)).
  { left. apply elem_of_app. right. apply list_elem_of_here. }
  destruct (decide (s = -1)).
  { right; left. apply elem_of_app. right. apply list_elem_of_here. }
  destruct (decide (n = -1)).
  { right; right. apply elem_of_app. right. apply list_elem_of_here. }
  rewrite !bool_decide_true in Hok by done. discriminate Hok.
Qed.

Lemma X13_no_silent_drop_witness :
  exists msgs,
    do_line "out" ("FILE a.c" +:+ nl) true (world_of ∅)
    = (printed msgs (world_of ∅), Ok true) /\
    (no_filename ("FILE a.c" +:+ nl) ∈ msgs \/
     no_startline ("FILE a.c" +:+ nl) ∈ msgs \/
     no_num_lines ("FILE a.c" +:+ nl) ∈ msgs).
Proof.
  destruct (X13_no_silent_drop "out" ("FILE a.c" +:+ nl) true (world_of ∅))
    as [(rec & Hw & _)|[(e & He)|H]].
  - discriminate.
  - vm_compute in Hw. discriminate Hw.
  - vm_compute in He. discriminate He.
  - exact H.
Defined.

(** X14.  When a run completes, the records it wrote are, in the order
    of the input, the records of the lines that have one: no record is
    lost, repeated, or moved, and blank lines are all that is written
    between them. *)
Theorem X14_records_in_order input output w :
  snd (convert_file input output w) = Ok tt ->
  exists ws,
    written (fst (convert_file input output w)) = written w ++ ws /\
    filter (fun x => x <> nl) ws = omap record_of (input_lines input output w).
Proof.
  intros Hok.
  destruct (convert_file_writes input output w) as (ws & Hw & _ & _ & _ & _ & Ho).
  exists ws. split; [done | by apply Ho].
Qed.

Lemma X14_records_in_order_witness :
  exists ws,
    written (fst (convert_file "in" "out" (world_of {[ "in"%string := spec_input ]})))
    = [] ++ ws /\
    filter (fun x => x <> nl) ws = ["1,3,test.c" +:+ nl; "10,2,test.c" +:+ nl].
Proof.
  destruct (X14_records_in_order "in" "out" (world_of {[ "in"%string := spec_input ]}))
    as (ws & Hw & Hf).
  - vm_compute. reflexivity.
  - exists ws. split; [exact Hw|]. rewrite Hf. vm_compute. reflexivity.
Defined.

(** X15.  A run writes at most one line per input line: no more blank
    lines than the input has blank lines, and no more records than the
    input has lines with tokens. *)
Theorem X15_at_most_one_write_per_line input output w :
  exists ws,
    written (fst (convert_file input output w)) = written w ++ ws /\
    (length ws <= length (input_lines input output w))%nat /\
    (length (filter (fun x => x = nl) ws)
     <= length (filter (fun l => py_split l = []) (input_lines input output w)))%nat /\
    (length (filter (fun x => x <> nl) ws)
     <= length (filter (fun l => py_split l <> []) (input_lines input output w)))%nat.
Proof.
  destruct (convert_file_writes input output w) as (ws & Hw & _ & Hl & Hb & Hr & _).
  by exists ws.
Qed.

(** X16.  A skipped line (one with tokens that raises nothing and has no
    record) leaves no trace in the output: the run over the lines with
    it has the outcome, the files and the writes of the run over the
    lines without it.  In particular it does not count as a blank line
    and does not hide one. *)
Theorem X16_skipped_line_transparent out line l1 l2 wb w :
  skipped line ->
  snd (for_each (do_line out) (l1 ++ line :: l2) wb w)
  = snd (for_each (do_line out) (l1 ++ l2) wb w) /\
  files (fst (for_each (do_line out) (l1 ++ line :: l2) wb w))
  = files (fst (for_each (do_line out) (l1 ++ l2) wb w)) /\
  written (fst (for_each (do_line out) (l1 ++ line :: l2) wb w))
  = written (fst (for_each (do_line out) (l1 ++ l2) wb w)).
Proof.
  intros Hsk. rewrite !for_each_app. unfold bind.
  destruct (for_each (do_line out) l1 wb w) as [w1 [wb1|e]]; [|done].
  destruct (skipped_spec line Hsk out wb1 w1) as [msgs Hd].
  rewrite (for_each_step _ _ _ _ _ _ _ Hd).
  destruct (loop_same_output out l2 wb1 (printed msgs w1) w1
              (same_output_printed msgs w1)) as (Hr & Hf & Hw).
  done.
Qed.

Lemma X16_skipped_line_transparent_witness :
  written (fst (for_each (do_line "out")
                  (["FILE a.c LINE:1:2" +:+ nl] ++
                   ("FILE b.c" +:+ nl) :: [nl; "FILE c.c LINE:3:4" +:+ nl])
                  false (world_of ∅)))
  = ["1,2,a.c" +:+ nl; nl; "3,4,c.c" +:+ nl].
Proof.
  destruct (X16_skipped_line_transparent "out" ("FILE b.c" +:+ nl)
              ["FILE a.c LINE:1:2" +:+ nl] [nl; "FILE c.c LINE:3:4" +:+ nl]
              false (world_of ∅)) as (_ & _ & Hw).
  - split; [discriminate|]. split; vm_compute; reflexivity.
  - rewrite Hw. vm_compute. reflexivity.
Defined.

(** ** Lines with a missing field *)

(** X17.  A line with tokens none of which is [FILE], and whose [LINE]
    tokens raise nothing, is passed over with the diagnostic of the
    missing file name, even when it holds a valid [LINE] token: nothing is
    written and the flag is kept. *)
Theorem X17_missing_filename out line wb w :
  py_split line <> [] ->
  "FILE"%string ∉ py_split line ->
  Forall (fun t => ~ nonnumeric t) (py_split line) ->
  exists msgs,
    do_line out line wb w = (printed msgs w, Ok wb) /\
    no_filename line ∈ msgs.
Proof.
  intros Hne Hnf Hnn.
  assert (Hlast : last (py_split line) <> Some "FILE"%string).
  { intros Hl. by apply last_Some_elem_of in Hl. }
  destruct (scan_pure_completes (py_split line) "" (-1) (-1) Hlast Hnn)
    as [[[f s] n] Hr].
  assert (Hf : f = ""%string) by (by eapply scan_pure_no_file).
  subst f. rewrite do_line_data by done. unfold line_outcome.
  destruct (scan_pure (py_split line) "" (-1) (-1)) as [k r]. simpl in *. subst r.
  exists (repeat (bad_delimiter line) k ++ field_diags line "" s n).
  rewrite printed_app. split; [done|].
  apply elem_of_app. right. unfold field_diags. simpl. apply list_elem_of_here.
Qed.

Lemma X17_missing_filename_witness :
  exists msgs,
    do_line "out" ("a.c LINE:1:2" +:+ nl) true (world_of ∅)
    = (printed msgs (world_of ∅), Ok true) /\
    no_filename ("a.c LINE:1:2" +:+ nl) ∈ msgs.
Proof.
  apply (X17_missing_filename "out" ("a.c LINE:1:2" +:+ nl) true (world_of ∅)).
  - discriminate.
  - change (py_split ("a.c LINE:1:2" +:+ nl)) with ["a.c"%string; "LINE:1:2"%string].
    not_in_literals.
  - change (py_split ("a.c LINE:1:2" +:+ nl)) with ["a.c"%string; "LINE:1:2"%string].
    no_nonnumeric.
Defined.

(** X18.  A line that holds a [FILE] token, does not end with it, and
    has no [LINE]-prefixed token prints exactly two diagnostics, that of
    the missing start line and that of the missing number of lines, in
    this order; nothing is written and the flag is kept. *)
Theorem X18_missing_line_token out line wb w :
  "FILE"%string ∈ py_split line ->
  last (py_split line) <> Some "FILE"%string ->
  Forall (fun t => ~ line_prefixed t) (py_split line) ->
  do_line out line wb w =
    (printed [no_startline line; no_num_lines line] w, Ok wb).
Proof.
  intros Hin Hlast Hnl.
  assert (Hnn : Forall (fun t => ~ nonnumeric t) (py_split line)).
  { eapply Forall_impl; [exact Hnl|]. intros t Ht (Hl & _). by apply Ht. }
  assert (Hnm : Forall (fun t => ~ malformed t) (py_split line)).
  { eapply Forall_impl; [exact Hnl|]. intros t Ht (Hl & _). by apply Ht. }
  assert (Hn3 : Forall (fun t => line_prefixed t -> ~ three_parts t) (py_split line)).
  { eapply Forall_impl; [exact Hnl|]. intros t Ht Hl. by destruct (Ht Hl). }
  destruct (scan_pure_completes (py_split line) "" (-1) (-1) Hlast Hnn)
    as [[[f s] n] Hr].
  destruct (scan_pure_no_numbers _ _ _ _ _ _ _ Hn3 Hr) as [-> ->].
  assert (Hf : f <> ""%string).
  { apply (py_split_nonempty line). by eapply scan_pure_filename_found. }
  pose proof (scan_pure_no_malformed (py_split line) "" (-1) (-1) Hnm) as Hk.
  rewrite do_line_data.
  2:{ unfold blank. intros Hb. rewrite Hb in Hin. by apply elem_of_nil in Hin. }
  unfold line_outcome.
  destruct (scan_pure (py_split line) "" (-1) (-1)) as [k r]. simpl in *.
  subst k r. simpl. rewrite printed_nil.
  unfold fields_ok, field_diags. rewrite (decide_False (P := f = ""%string)) by done.
  simpl. by rewrite andb_false_r.
Qed.

Lemma X18_missing_line_token_witness :
  do_line "out" ("FILE foo.c" +:+ nl) true (world_of ∅) =
  (printed [no_startline ("FILE foo.c" +:+ nl); no_num_lines ("FILE foo.c" +:+ nl)]
     (world_of ∅),
   Ok true).
Proof.
  apply X18_missing_line_token.
  - change (py_split ("FILE foo.c" +:+ nl)) with ["FILE"%string; "foo.c"%string].
    apply list_elem_of_here.
  - discriminate.
  - change (py_split ("FILE foo.c" +:+ nl)) with ["FILE"%string; "foo.c"%string].
    repeat constructor; intros Hl; discriminate Hl.
Defined.
